(** * Urdu to Speech AI: the response normalizer of [main.py]

    A shallow embedding of [src/main.py]: the provider-response normalizer
    [call_orator_tts_bytes], its helper [fetch_binary_url], the front door
    [api_synthesize] and the [health] endpoint, followed by the properties
    the specification states about them.

    Modelling conventions.
    - A Python [str] is the list of its Unicode code points ([list N]);
      [u "..."] turns an ASCII literal of the source into such a list.
    - [bytes] is [list Byte.byte].
    - A value produced by [json.loads] is a [JSON]; a Python [dict] is a
      [gmap] from keys to values, [None] is [JNull].
    - The network and the two library routines whose text is not part of
      the repository ([base64.b64decode] and the message of httpx's
      [HTTPStatusError]) are variables of the section [Service]; a reference
      model of CPython's decoder, [py_b64decode], is given for the examples.
    - Outbound calls are recorded in a trace threaded through a small
      state-and-exception monad [M]. *)

From Stdlib Require Import ZArith NArith List String Ascii Floats Lia Bool.
From stdpp Require Import base option list gmap.

Set Warnings "-register-all".
Local Open Scope Z_scope.

(** ** Python strings and bytes *)

Abbreviation str := (list N).
Abbreviation bytes := (list Byte.byte).

(** An ASCII literal of the source as a [str]. *)
Definition u (s : string) : str :=
  map (fun a : ascii => N_of_ascii a) (list_ascii_of_string s).
Arguments u : simpl never.

(** [s.startswith(pre)] *)
Fixpoint startswith (s pre : str) {struct pre} : bool :=
  match pre, s with
  | [], _ => true
  | _ :: _, [] => false
  | p :: pre', c :: s' => N.eqb c p && startswith s' pre'
  end.

(** [pat in s] for two strings: [pat] occurs as a contiguous run of [s]. *)
Fixpoint contains (pat s : str) : bool :=
  startswith s pat ||
  match s with
  | [] => false
  | _ :: s' => contains pat s'
  end.

(** [s.split(sep)] for a one-character separator. *)
Fixpoint split (sep : N) (s : str) : list str :=
  match s with
  | [] => [[]]
  | c :: s' =>
      if N.eqb c sep then [] :: split sep s'
      else match split sep s' with
           | [] => [[c]]
           | w :: ws => (c :: w) :: ws
           end
  end.

(** [l[0]] on the (never empty) result of [split]. *)
Definition item0 (l : list str) : str := hd [] l.

(** The code points [str.strip()] removes: CPython's [Py_UNICODE_ISSPACE]. *)
Definition isspace (c : N) : bool :=
  ((9 <=? c) && (c <=? 13) || (28 <=? c) && (c <=? 32)
   || (c =? 133) || (c =? 160) || (c =? 5760)
   || (8192 <=? c) && (c <=? 8202)
   || (c =? 8232) || (c =? 8233) || (c =? 8239) || (c =? 8287)
   || (c =? 12288))%N.

Fixpoint lstrip (s : str) : str :=
  match s with
  | c :: s' => if isspace c then lstrip s' else s
  | [] => []
  end.

Definition rstrip (s : str) : str := rev (lstrip (rev s)).

(** [s.strip()] *)
Definition strip (s : str) : str := rstrip (lstrip s).

(** Truth value of a [str] or [bytes] object: non-empty. *)
Definition nonempty {A} (l : list A) : bool :=
  match l with [] => false | _ :: _ => true end.

(** Key normalisation of httpx's case-insensitive [Headers]. *)
Definition lower_char (c : N) : N :=
  (if (65 <=? c) && (c <=? 90) then c + 32 else c)%N.
Definition lower (s : str) : str := map lower_char s.

(** ** JSON values, as [json.loads] returns them *)

Inductive JSON : Type :=
| JNull
| JBool (b : bool)
| JInt (n : Z)
| JFloat (f : float)
| JStr (s : str)
| JArr (l : list JSON)
| JObj (o : gmap str JSON).

(** Python's truth value, as tested by [if not text]. *)
Definition truthy (v : JSON) : bool :=
  match v with
  | JNull => false
  | JBool b => b
  | JInt n => negb (n =? 0)
  | JFloat f => negb (PrimFloat.eqb f 0%float)
  | JStr s => nonempty s
  | JArr l => nonempty l
  | JObj o => nonempty (map_to_list o)
  end.

(** [v in (a, b)] for a tuple of two string literals: [v == a or v == b]. *)
Definition is_str (v : JSON) (s : str) : bool :=
  match v with
  | JStr t => bool_decide (t = s)
  | _ => false
  end.

(** [payload.get(key, dflt) if isinstance(payload, dict) else dflt] *)
Definition get_or (payload : JSON) (key : str) (dflt : JSON) : JSON :=
  match payload with
  | JObj o => default dflt (o !! key)
  | _ => dflt
  end.

(** ** The HTTP client, as the program observes it *)

(** An [httpx.Response]: the attributes [main.py] reads.  [text] and [json]
    are the library's decodings of [content]; [json] is [None] when
    [resp.json()] raises.  [headers] is keyed by lower-cased names. *)
Record Response := {
  status_code : Z;
  headers : gmap str str;
  content : bytes;
  text : str;
  json : option JSON
}.

(** [resp.headers.get(key, dflt)] *)
Definition headers_get (r : Response) (key dflt : str) : str :=
  default dflt (headers r !! lower key).

(** [Response.is_success], the test of [raise_for_status]. *)
Definition is_success (r : Response) : bool :=
  (200 <=? status_code r) && (status_code r <=? 299).

(** The outbound calls the program can make. *)
Inductive Call :=
| POST (url : str) (body : JSON) (hdrs : list (str * str))
| GET (url : str).

(** What one call does: return a response, raise an [httpx.RequestError]
    (connection failure, timeout...) or raise some other exception. *)
Inductive Outcome :=
| Returned (r : Response)
| RaisedRequestError (msg : str)
| RaisedOther (msg : str).

(** Exceptions that leave the endpoint functions. *)
Inductive Exception :=
| HTTPException (status : Z) (detail : JSON)
| Unhandled (msg : str).

Inductive Result (A : Type) :=
| Ok (a : A)
| Raise (e : Exception).
Arguments Ok {A} a.
Arguments Raise {A} e.

(** State (the trace of outbound calls so far) and exceptions. *)
Definition M (A : Type) : Type := list Call -> list Call * Result A.

Definition ret {A} (a : A) : M A := fun tr => (tr, Ok a).
Definition raise {A} (e : Exception) : M A := fun tr => (tr, Raise e).
Definition bind {A B} (m : M A) (k : A -> M B) : M B :=
  fun tr =>
    match m tr with
    | (tr', Ok a) => k a tr'
    | (tr', Raise e) => (tr', Raise e)
    end.

Notation "x <-- m ;; k" := (bind m (fun x => k))
  (at level 100, m at next level, right associativity).

(** Responses of the endpoints. [StreamingResponse] has status 200. *)
Inductive HTTPResponse :=
| JSONResponse (status : Z) (body : JSON)
| StreamingResponse (body : bytes) (media_type : str).

Definition response_status (r : HTTPResponse) : Z :=
  match r with
  | JSONResponse s _ => s
  | StreamingResponse _ _ => 200
  end.

(** ** Reference model of [base64.b64decode]

    CPython's [base64.b64decode(s)] on a [str]: the argument is encoded as
    ASCII (a [ValueError] otherwise), then [binascii.a2b_base64] runs in its
    lenient mode: characters outside the alphabet are skipped, a complete
    pad sequence ends the input, leftover sextets are an error.  [None]
    stands for a raised exception. *)

Definition b64_value (c : N) : option N :=
  (if (65 <=? c) && (c <=? 90) then Some (c - 65)
   else if (97 <=? c) && (c <=? 122) then Some (c - 71)
   else if (48 <=? c) && (c <=? 57) then Some (c + 4)
   else if c =? 43 then Some 62
   else if c =? 47 then Some 63
   else None)%N.

Definition byte_of_N (n : N) : Byte.byte :=
  default Byte.x00 (Byte.of_N (n mod 256)%N).

Fixpoint a2b_base64 (s : str) (quad_pos : nat) (leftchar : N) (pads : nat)
    (out : bytes) : option bytes :=
  match s with
  | [] => if Nat.eqb quad_pos 0 then Some out else None
  | c :: s' =>
      if (c =? 61)%N then
        if Nat.leb 2 quad_pos then
          if Nat.leb 4 (quad_pos + S pads) then Some out
          else a2b_base64 s' quad_pos leftchar (S pads) out
        else a2b_base64 s' quad_pos leftchar pads out
      else
        match b64_value c with
        | None => a2b_base64 s' quad_pos leftchar pads out
        | Some v =>
            match quad_pos with
            | 0%nat => a2b_base64 s' 1 v 0 out
            | 1%nat =>
                a2b_base64 s' 2 (N.land v 15) 0
                  (out ++ [byte_of_N (N.lor (N.shiftl leftchar 2) (N.shiftr v 4))])
            | 2%nat =>
                a2b_base64 s' 3 (N.land v 3) 0
                  (out ++ [byte_of_N (N.lor (N.shiftl leftchar 4) (N.shiftr v 2))])
            | _ =>
                a2b_base64 s' 0 0%N 0
                  (out ++ [byte_of_N (N.lor (N.shiftl leftchar 6) v)])
            end
        end
  end.

Definition py_b64decode (s : str) : option bytes :=
  if forallb (fun c => (c <? 128)%N) s then a2b_base64 s 0 0%N 0 [] else None.

(** ** Sample data used to exercise the statements *)

Module Sample.

(** An environment in which the variable read by [ORATOR_API_KEY] is set. *)
Definition env_key : gmap str str :=
  {[ u "sk_api_61ca8d1b81af22adbff32d1d73628d5d5d08e8fe4ed29aa7dea0a29c728cacea"
     := u "secret" ]}.

Definition message (r : Response) : str := u "status error".

(** A network that answers every POST with [p] and every GET with [g]. *)
Definition net (p g : Outcome) : Call -> Outcome :=
  fun c => match c with POST _ _ _ => p | GET _ => g end.

(** A body written with ['] where the wire has a double quote. *)
Definition body_text (body : string) : str :=
  map (fun c => if (c =? 39)%N then 34%N else c) (u body).

Definition resp (status : Z) (ctype : option string) (body : string)
    (parsed : option JSON) : Response :=
  {| status_code := status;
     headers := match ctype with
                | Some ct => {[ u "content-type" := u ct ]}
                | None => ∅
                end;
     content := map byte_of_N (body_text body);
     text := body_text body;
     json := parsed |}.

Definition txt : JSON := JStr (u "salam").
Definition voice : JSON := JStr (u "urdu").
Definition fmt : JSON := JStr (u "mp3").

(** The request [{"text": "salam", "format": "mp3"}]. *)
Definition request : JSON :=
  JObj (<[u "text" := txt]> (<[u "format" := fmt]> ∅)).

(** Provider answers of each shape. *)
Definition obj_b64 : gmap str JSON :=
  <[u "audio" := JInt 5]> {[ u "audio_base64" := JStr (u "aGk=") ]}.
Definition resp_b64 : Response :=
  resp 200 (Some "application/json"%string)
    "{'audio': 5, 'audio_base64': 'aGk='}" (Some (JObj obj_b64)).

Definition obj_url : gmap str JSON :=
  {[ u "result_url" := JStr (u "http://example/audio.mp3") ]}.
Definition resp_url : Response :=
  resp 200 (Some "application/json"%string)
    "{'result_url': 'http://example/audio.mp3'}" (Some (JObj obj_url)).
Definition resp_404 : Response := resp 404 None "not found" None.

Definition resp_audio : Response :=
  resp 200 (Some "audio/mpeg; charset=binary"%string) "ID3" None.

Definition resp_nested : Response :=
  resp 200 (Some "application/json"%string) "{'data': {'audio': 'aGk='}}"
    (Some (JObj {[ u "data" := JObj {[ u "audio" := JStr (u "aGk=") ]} ]})).

Definition resp_plain : Response :=
  resp 200 (Some "text/plain"%string) "oops" None.
Definition resp_empty_500 : Response := resp 500 None EmptyString None.
Definition resp_error_500 : Response :=
  resp 500 (Some "text/plain"%string) "upstream failure" None.

(** Networks: the provider answers [r]; nothing else is reachable. *)
Definition answers (r : Response) : Call -> Outcome :=
  net (Returned r) (RaisedOther (u "unreachable")).
Definition offline : Call -> Outcome :=
  net (RaisedOther (u "unreachable")) (RaisedOther (u "unreachable")).

End Sample.

(** ** The service *)

Section Service.

(** The process environment after [load_dotenv()]. *)
Variable environ : gmap str str.

(** The network: what each outbound call does. *)
Variable network : Call -> Outcome.

(** [base64.b64decode]; [None] when it raises. *)
Variable b64decode : str -> option bytes.

(** [str(e)] for the [HTTPStatusError] that [raise_for_status] raises. *)
Variable status_error_message : Response -> str.

(** [os.getenv(name)] and [os.getenv(name, dflt)] *)
Definition getenv (name : str) : option str := environ !! name.
Definition getenv_or (name dflt : str) : str := default dflt (environ !! name).

Definition ORATOR_API_KEY : option str :=
  getenv (u "sk_api_61ca8d1b81af22adbff32d1d73628d5d5d08e8fe4ed29aa7dea0a29c728cacea").

Definition ORATOR_TTS_ENDPOINT : str :=
  getenv_or (u "ORATOR_TTS_ENDPOINT") (u "https://api.orator.example/v1/tts").

(** Truth value of an [Optional[str]]: [bool(ORATOR_API_KEY)]. *)
Definition truthy_opt (k : option str) : bool :=
  match k with
  | Some s => nonempty s
  | None => false
  end.

(** [await client.get(url, timeout=60.0)] and [client.post(...)]: the call
    is appended to the trace and its outcome is handed to the caller. *)
Definition perform (c : Call) : list Call -> list Call * Outcome :=
  fun tr => (tr ++ [c], network c).

(** [fetch_binary_url], lines 148-155: any exception of the GET or of
    [raise_for_status] becomes a 502. *)
Definition fetch_binary_url (url : str) : M bytes :=
  fun tr =>
    let '(tr', o) := perform (GET url) tr in
    match o with
    | Returned r =>
        if is_success r then (tr', Ok (content r))
        else (tr', Raise (HTTPException 502
               (JStr (u "Failed to fetch audio URL: " ++ status_error_message r))))
    | RaisedRequestError msg | RaisedOther msg =>
        (tr', Raise (HTTPException 502
               (JStr (u "Failed to fetch audio URL: " ++ msg))))
    end.

(** ["audio/mpeg" if fmt in ("mp3", "mpeg") else "audio/wav"] *)
Definition guess_mime (fmt : JSON) : str :=
  if is_str fmt (u "mp3") || is_str fmt (u "mpeg")
  then u "audio/mpeg" else u "audio/wav".

(** The loops of lines 203-212 and 224-231: the first key whose value is
    a string that decodes; a failed decode moves on to the next key. *)
Fixpoint scan_b64 (keys : list str) (j : gmap str JSON) : option bytes :=
  match keys with
  | [] => None
  | key :: keys' =>
      match j !! key with
      | Some (JStr b64) =>
          match b64decode b64 with
          | Some b => Some b
          | None => scan_b64 keys' j
          end
      | _ => scan_b64 keys' j
      end
  end.

(** The loop of lines 214-215: the first key whose value is a string
    starting with "http". *)
Fixpoint scan_url (keys : list str) (j : gmap str JSON) : option str :=
  match keys with
  | [] => None
  | key :: keys' =>
      match j !! key with
      | Some (JStr s) =>
          if startswith s (u "http") then Some s else scan_url keys' j
      | _ => scan_url keys' j
      end
  end.

Definition b64_keys : list str :=
  [u "audio"; u "audio_base64"; u "result"; u "data"].
Definition url_keys : list str :=
  [u "url"; u "audio_url"; u "result_url"; u "file"].
Definition nested_keys : list str := [u "audio"; u "audio_base64"].

(** Line 189: the declared content type. *)
Definition content_type_of (resp : Response) : str :=
  headers_get resp (u "Content-Type") (headers_get resp (u "content-type") []).

(** Line 190: the test for a direct binary answer. *)
Definition is_direct_audio (resp : Response) : bool :=
  let content_type := content_type_of resp in
  (status_code resp =? 200) && nonempty content_type
  && (contains (u "audio") content_type || contains (u "octet-stream") content_type).

(** Line 195: the test for a JSON answer. *)
Definition looks_like_json (resp : Response) : bool :=
  let ct := headers_get resp (u "Content-Type") [] in
  contains (u "application/json") ct
  || (nonempty (text resp)
      && (startswith (strip (text resp)) (u "{")
          || startswith (strip (text resp)) (u "["))).

(** Lines 196-231: what the JSON branch returns, [None] when it falls
    through to the raw fallback. *)
Definition json_steps (resp : Response) (fmt : JSON) : M (option (bytes * str)) :=
  match json resp with
  | Some (JObj j) =>
      match scan_b64 b64_keys j with
      | Some b => ret (Some (b, guess_mime fmt))
      | None =>
          match scan_url url_keys j with
          | Some url =>
              audio_bytes <-- fetch_binary_url url ;;
              ret (Some (audio_bytes, u "audio/mpeg"))
          | None =>
              match j !! u "data" with
              | Some (JObj data) =>
                  match scan_b64 nested_keys data with
                  | Some b => ret (Some (b, guess_mime fmt))
                  | None => ret None
                  end
              | _ => ret None
              end
          end
      end
  | _ => ret None
  end.

(** Lines 170-180: the headers and the JSON body of the provider call. *)
Definition orator_headers : list (str * str) :=
  [ (u "Authorization", u "Bearer " ++ default [] ORATOR_API_KEY);
    (u "Accept", u "application/octet-stream, audio/*, application/json, */*");
    (u "Content-Type", u "application/json") ].

Definition orator_payload (txt voice fmt : JSON) : JSON :=
  JObj (<[u "text" := txt]> (<[u "voice" := voice]> (<[u "format" := fmt]> ∅))).

Definition orator_call (txt voice fmt : JSON) : Call :=
  POST ORATOR_TTS_ENDPOINT (orator_payload txt voice fmt) orator_headers.

(** The POST of line 184 with its handler: only [httpx.RequestError] is
    caught; any other exception leaves the function as it is. *)
Definition post_orator (txt voice fmt : JSON) : M Response :=
  fun tr =>
    let '(tr', o) := perform (orator_call txt voice fmt) tr in
    match o with
    | Returned r => (tr', Ok r)
    | RaisedRequestError msg =>
        (tr', Raise (HTTPException 502
               (JStr (u "Request to Orator failed: " ++ msg))))
    | RaisedOther msg => (tr', Raise (Unhandled msg))
    end.

(** Lines 188-240: from the provider's response to [(bytes, mime)]. *)
Definition normalize (resp : Response) (fmt : JSON) : M (bytes * str) :=
  if is_direct_audio resp then
    ret (content resp, item0 (split 59 (content_type_of resp)))
  else
    found <-- (if looks_like_json resp then json_steps resp fmt else ret None) ;;
    match found with
    | Some res => ret res
    | None =>
        if nonempty (content resp) then
          ret (content resp, u "application/octet-stream")
        else
          raise (HTTPException 502
                   (JObj (<[u "status_code" := JInt (status_code resp)]>
                           (<[u "text" := JStr (text resp)]> ∅))))
    end.

(** [call_orator_tts_bytes], lines 158-240 (the parameter [text] is
    written [txt]: [text] is the attribute of [Response]). *)
Definition call_orator_tts_bytes (txt voice fmt : JSON) : M (bytes * str) :=
  if negb (truthy_opt ORATOR_API_KEY) then
    raise (HTTPException 500 (JStr (u "Server is not configured with ORATOR_API_KEY")))
  else
    resp <-- post_orator txt voice fmt ;;
    normalize resp fmt.

(** [api_synthesize], lines 243-261. *)
Definition api_synthesize (payload : JSON) : M HTTPResponse :=
  let txt := get_or payload (u "text") JNull in
  let voice := get_or payload (u "voice") (JStr (u "urdu")) in
  let fmt := get_or payload (u "format") (JStr (u "mp3")) in
  if negb (truthy txt) then
    ret (JSONResponse 400 (JObj {[ u "detail" := JStr (u "text is required") ]}))
  else
    res <-- call_orator_tts_bytes txt voice fmt ;;
    ret (StreamingResponse (fst res) (snd res)).

(** [health], lines 265-268. *)
Definition health : gmap str JSON :=
  let ok := truthy_opt ORATOR_API_KEY in
  <[u "status" := JStr (if ok then u "ok" else u "missing_api_key")]>
    (<[u "orator_configured" := JBool ok]> ∅).

(** *** Predicates used in the statements *)

(** No key of [keys] holds, in [j], a string that decodes. *)
Definition no_b64 (keys : list str) (j : gmap str JSON) : Prop :=
  forall key s, key ∈ keys -> j !! key = Some (JStr s) -> b64decode s = None.

(** [key] is the first key of [keys] that holds, in [j], a string that
    decodes, and it decodes to [b]. *)
Definition first_b64 (keys : list str) (j : gmap str JSON) (key : str)
    (b : bytes) : Prop :=
  exists pre post b64,
    keys = pre ++ key :: post /\ no_b64 pre j
    /\ j !! key = Some (JStr b64) /\ b64decode b64 = Some b.

(** No key of [keys] holds, in [j], a string that starts with "http". *)
Definition no_url (keys : list str) (j : gmap str JSON) : Prop :=
  forall key s,
    key ∈ keys -> j !! key = Some (JStr s) -> startswith s (u "http") = false.

(** [key] is the first key of [keys] that holds such a string, [url]. *)
Definition first_url (keys : list str) (j : gmap str JSON) (key url : str)
    : Prop :=
  exists pre post,
    keys = pre ++ key :: post /\ no_url pre j
    /\ j !! key = Some (JStr url) /\ startswith url (u "http") = true.

(** The answers no step recognises: the JSON branch is not entered, or the
    parsed value is not an object, or no field of the object matches. *)
Definition no_field_matches (j : gmap str JSON) : Prop :=
  no_b64 b64_keys j /\ no_url url_keys j
  /\ forall data, j !! u "data" = Some (JObj data) -> no_b64 nested_keys data.

Definition no_json_match (resp : Response) : Prop :=
  looks_like_json resp = false
  \/ match json resp with
     | Some (JObj j) => no_field_matches j
     | _ => True
     end.

(** [pat] occurs in [s]. *)
Definition mentions (pat s : str) : Prop := exists a b, s = a ++ pat ++ b.

(** The shape of a direct binary answer: status 200 and a declared
    content type that mentions "audio" or "octet-stream". *)
Definition direct_audio_shape (resp : Response) : Prop :=
  status_code resp = 200
  /\ exists ct, headers resp !! u "content-type" = Some ct
       /\ (mentions (u "audio") ct \/ mentions (u "octet-stream") ct).

(** The secondary fetch of [url] fails: the GET raises, or its answer has
    a status outside 200..299. *)
Definition fetch_fails (url : str) : Prop :=
  match network (GET url) with
  | Returned r => status_code r < 200 \/ 299 < status_code r
  | RaisedRequestError _ | RaisedOther _ => True
  end.

(** The object [{"data": {"audio": s}}]. *)
Definition nested_example (s : str) : gmap str JSON :=
  {[ u "data" := JObj {[ u "audio" := JStr s ]} ]}.

(** Two results that differ at most in the mime type of a success. *)
Definition same_up_to_mime (r1 r2 : Result (bytes * str)) : Prop :=
  match r1, r2 with
  | Ok (b1, _), Ok (b2, _) => b1 = b2
  | Raise e1, Raise e2 => e1 = e2
  | _, _ => False
  end.

(** The ways [normalize] can end on [resp], started with the trace [tr]:
    one constructor per return or raise of lines 188-240. *)
Inductive normalize_outcome (resp : Response) (fmt : JSON) (tr : list Call)
  : list Call * Result (bytes * str) -> Prop :=
| out_direct :
    is_direct_audio resp = true ->
    normalize_outcome resp fmt tr
      (tr, Ok (content resp, item0 (split 59 (content_type_of resp))))
| out_b64 j b :
    is_direct_audio resp = false -> looks_like_json resp = true ->
    json resp = Some (JObj j) -> scan_b64 b64_keys j = Some b ->
    normalize_outcome resp fmt tr (tr, Ok (b, guess_mime fmt))
| out_url j url g :
    is_direct_audio resp = false -> looks_like_json resp = true ->
    json resp = Some (JObj j) -> scan_b64 b64_keys j = None ->
    scan_url url_keys j = Some url ->
    network (GET url) = Returned g -> is_success g = true ->
    normalize_outcome resp fmt tr
      (tr ++ [GET url], Ok (content g, u "audio/mpeg"))
| out_url_failed j url detail :
    is_direct_audio resp = false -> looks_like_json resp = true ->
    json resp = Some (JObj j) -> scan_b64 b64_keys j = None ->
    scan_url url_keys j = Some url -> fetch_fails url ->
    normalize_outcome resp fmt tr
      (tr ++ [GET url], Raise (HTTPException 502 (JStr detail)))
| out_nested j data b :
    is_direct_audio resp = false -> looks_like_json resp = true ->
    json resp = Some (JObj j) -> scan_b64 b64_keys j = None ->
    scan_url url_keys j = None -> j !! u "data" = Some (JObj data) ->
    scan_b64 nested_keys data = Some b ->
    normalize_outcome resp fmt tr (tr, Ok (b, guess_mime fmt))
| out_raw :
    is_direct_audio resp = false -> content resp <> [] ->
    normalize_outcome resp fmt tr
      (tr, Ok (content resp, u "application/octet-stream"))
| out_error :
    is_direct_audio resp = false -> content resp = [] ->
    normalize_outcome resp fmt tr
      (tr, Raise (HTTPException 502
                    (JObj (<[u "status_code" := JInt (status_code resp)]>
                            (<[u "text" := JStr (text resp)]> ∅))))).

(** ** Strings *)

Lemma startswith_spec (s pre : str) :
startswith s pre = true <-> exists rest, s = pre ++ rest.
Proof.
revert s; induction pre as [|p pre IH]; intros s; simpl.
- split; [intros _; by exists s | done].
- destruct s as [|c s]; simpl.
  + split; [done | intros [rest H]; discriminate H].
  + rewrite andb_true_iff, N.eqb_eq, IH. split.
    * intros [-> [rest ->]]. by exists rest.
    * intros [rest H]. injection H as -> ->. eauto.
Qed.

Lemma contains_spec (pat s : str) :
contains pat s = true <-> exists a b, s = a ++ pat ++ b.
Proof.
induction s as [|c s IH].
- simpl. rewrite orb_false_r, startswith_spec. split.
  + intros [rest H]. by exists [], rest.
  + intros (a & b & H). symmetry in H.
    apply app_eq_nil in H as [-> H]. apply app_eq_nil in H as [-> ->].
    by exists [].
- cbn [contains]. rewrite orb_true_iff, startswith_spec, IH. split.
  + intros [[rest H] | (a & b & H)].
    * by exists [], rest.
    * exists (c :: a), b. by rewrite H.
  + intros (a & b & H). destruct a as [|x a].
    * left. by exists b.
    * right. injection H as -> ->. by exists a, b.
Qed.

(** [s.split(";")[0]] is the part of [s] before its first separator. *)
Lemma split_item0 (sep : N) (s : str) :
exists rest,
  (s = item0 (split sep s) ++ rest)
  /\ (sep ∉ item0 (split sep s))
  /\ (rest = [] \/ exists rest', rest = sep :: rest').
Proof.
induction s as [|c s (rest & Hs & Hni & Hrest)]; simpl.
- exists []. split; [done|]. split; [apply not_elem_of_nil | by left].
- destruct (N.eqb_spec c sep) as [->|Hne]; simpl.
  + exists (sep :: s). split; [done|]. split; [apply not_elem_of_nil | right; eauto].
  + exists rest. unfold item0 in *. destruct (split sep s) as [|w ws]; simpl in *.
    * subst s. split; [done|]. split; [|done].
      intros [->|H]%elem_of_cons; [done | by apply not_elem_of_nil in H].
    * split; [by rewrite Hs at 1|]. split; [|done].
      intros [->|H]%elem_of_cons; [done | by apply Hni].
Qed.

Lemma nonempty_true {A} (l : list A) : nonempty l = true <-> l <> [].
Proof. by destruct l. Qed.

Lemma lower_content_type : lower (u "Content-Type") = u "content-type".
Proof. reflexivity. Qed.


(** ** Field scans *)

Lemma no_b64_nil j : no_b64 [] j.
Proof. intros key s H. by apply not_elem_of_nil in H. Qed.

Lemma no_b64_cons key keys j :
  no_b64 (key :: keys) j <->
  (forall s, j !! key = Some (JStr s) -> b64decode s = None) /\ no_b64 keys j.
Proof.
  unfold no_b64. split.
  - intros H. split; [intros s; apply H; left | intros k s Hk; apply H; by right].
  - intros [H1 H2] k s [->|Hk]%elem_of_cons; [apply H1 | by apply H2].
Qed.

Lemma scan_b64_None keys j :
  scan_b64 keys j = None <-> no_b64 keys j.
Proof.
  induction keys as [|key keys IH]; cbn [scan_b64 scan_url].
  - split; [intros _; apply no_b64_nil | done].
  - rewrite no_b64_cons, <- IH.
    destruct (j !! key) as [[| | | |s| |]|] eqn:Hk;
      try (split; [intros H; split; [intros s' [=] | exact H] | by intros [_ H]]).
    destruct (b64decode s) eqn:Hd.
    + split; [done | intros [H _]; specialize (H s eq_refl); congruence].
    + split; [intros H; split; [intros s' [= <-]; exact Hd | exact H] | by intros [_ H]].
Qed.

Lemma scan_b64_Some keys j b :
  scan_b64 keys j = Some b <-> exists key, first_b64 keys j key b.
Proof.
  induction keys as [|key keys IH]; cbn [scan_b64 scan_url].
  - split; [done | intros (key & pre & post & b64 & H & _)].
    by destruct pre.
  - assert (Hskip : (forall s, j !! key = Some (JStr s) -> b64decode s = None) ->
              (scan_b64 keys j = Some b <->
               exists key', first_b64 (key :: keys) j key' b)).
    { intros Hnone. rewrite IH. split.
      - intros (k & pre & post & b64 & -> & Hpre & Hk & Hd).
        exists k, (key :: pre), post, b64. split; [done|].
        split; [by apply no_b64_cons | done].
      - intros (k & pre & post & b64 & Heq & Hpre & Hk & Hd).
        destruct pre as [|p pre]; simpl in Heq; injection Heq as <- ->.
        + rewrite (Hnone _ Hk) in Hd. discriminate Hd.
        + apply no_b64_cons in Hpre as [_ Hpre]. by exists k, pre, post, b64. }
    destruct (j !! key) as [[| | | |s| |]|] eqn:Hk;
      try (apply Hskip; intros s' [=]).
    destruct (b64decode s) as [b'|] eqn:Hd.
    + split.
      * intros [= ->]. exists key, [], keys, s. split; [done|].
        split; [apply no_b64_nil | done].
      * intros (k & pre & post & b64 & Heq & Hpre & Hk' & Hd').
        destruct pre as [|p pre]; simpl in Heq; injection Heq as <- ->.
        -- congruence.
        -- apply no_b64_cons in Hpre as [Hp _].
           rewrite (Hp _ Hk) in Hd. discriminate Hd.
    + apply Hskip. by intros s' [= <-].
Qed.

Lemma no_url_nil j : no_url [] j.
Proof. intros key s H. by apply not_elem_of_nil in H. Qed.

Lemma no_url_cons key keys j :
  no_url (key :: keys) j <->
  (forall s, j !! key = Some (JStr s) -> startswith s (u "http") = false)
  /\ no_url keys j.
Proof.
  unfold no_url. split.
  - intros H. split; [intros s; apply H; left | intros k s Hk; apply H; by right].
  - intros [H1 H2] k s [->|Hk]%elem_of_cons; [apply H1 | by apply H2].
Qed.

Lemma scan_url_None keys j :
  scan_url keys j = None <-> no_url keys j.
Proof.
  induction keys as [|key keys IH]; cbn [scan_b64 scan_url].
  - split; [intros _; apply no_url_nil | done].
  - rewrite no_url_cons, <- IH.
    destruct (j !! key) as [[| | | |s| |]|] eqn:Hk;
      try (split; [intros H; split; [intros s' [=] | exact H] | by intros [_ H]]).
    destruct (startswith s (u "http")) eqn:Hd.
    + split; [done | intros [H _]; specialize (H s eq_refl); congruence].
    + split; [intros H; split; [intros s' [= <-]; exact Hd | exact H] | by intros [_ H]].
Qed.

Lemma scan_url_Some keys j url :
  scan_url keys j = Some url <-> exists key, first_url keys j key url.
Proof.
  induction keys as [|key keys IH]; cbn [scan_b64 scan_url].
  - split; [done | intros (key & pre & post & H & _)].
    by destruct pre.
  - assert (Hskip :
              (forall s, j !! key = Some (JStr s) -> startswith s (u "http") = false) ->
              (scan_url keys j = Some url <->
               exists key', first_url (key :: keys) j key' url)).
    { intros Hnone. rewrite IH. split.
      - intros (k & pre & post & -> & Hpre & Hk & Hd).
        exists k, (key :: pre), post. split; [done|].
        split; [by apply no_url_cons | done].
      - intros (k & pre & post & Heq & Hpre & Hk & Hd).
        destruct pre as [|p pre]; simpl in Heq; injection Heq as <- ->.
        + rewrite (Hnone _ Hk) in Hd. discriminate Hd.
        + apply no_url_cons in Hpre as [_ Hpre]. by exists k, pre, post. }
    destruct (j !! key) as [[| | | |s| |]|] eqn:Hk;
      try (apply Hskip; intros s' [=]).
    destruct (startswith s (u "http")) eqn:Hd.
    + split.
      * intros [= ->]. exists key, [], keys. split; [done|].
        split; [apply no_url_nil | done].
      * intros (k & pre & post & Heq & Hpre & Hk' & Hd').
        destruct pre as [|p pre]; simpl in Heq; injection Heq as <- ->.
        -- congruence.
        -- apply no_url_cons in Hpre as [Hp _].
           rewrite (Hp _ Hk) in Hd. discriminate Hd.
    + apply Hskip. by intros s' [= <-].
Qed.


(** ** Running the normalizer *)

Lemma is_str_true (v : JSON) (s : str) : is_str v s = true <-> v = JStr s.
Proof.
  destruct v; simpl; try (split; [done | intros [=]]).
  rewrite bool_decide_eq_true. split; [by intros -> | by intros [= ->]].
Qed.

Lemma guess_mime_mpeg (fmt : JSON) :
  fmt = JStr (u "mp3") \/ fmt = JStr (u "mpeg") -> guess_mime fmt = u "audio/mpeg".
Proof.
  unfold guess_mime. intros [H|H]; apply is_str_true in H; rewrite H; [done|].
  by rewrite orb_true_r.
Qed.

Lemma guess_mime_wav (fmt : JSON) :
  fmt <> JStr (u "mp3") -> fmt <> JStr (u "mpeg") -> guess_mime fmt = u "audio/wav".
Proof.
  unfold guess_mime. intros H1 H2.
  destruct (is_str fmt (u "mp3")) eqn:E1; [by apply is_str_true in E1|].
  destruct (is_str fmt (u "mpeg")) eqn:E2; [by apply is_str_true in E2|].
  done.
Qed.

Lemma content_type_of_lookup (resp : Response) :
  content_type_of resp = default [] (headers resp !! u "content-type").
Proof.
  unfold content_type_of, headers_get. rewrite lower_content_type.
  change (lower (u "content-type")) with (u "content-type").
  by destruct (headers resp !! u "content-type").
Qed.

(** Without a credential the function raises before anything else. *)
Lemma tts_unconfigured txt voice fmt tr :
  truthy_opt ORATOR_API_KEY = false ->
  call_orator_tts_bytes txt voice fmt tr =
    (tr, Raise (HTTPException 500
                  (JStr (u "Server is not configured with ORATOR_API_KEY")))).
Proof. unfold call_orator_tts_bytes. by intros ->. Qed.

(** With a credential and an answer from the provider, the function makes
    its POST and goes on with [normalize]. *)
Lemma tts_answered txt voice fmt tr resp :
  truthy_opt ORATOR_API_KEY = true ->
  network (orator_call txt voice fmt) = Returned resp ->
  call_orator_tts_bytes txt voice fmt tr =
    normalize resp fmt (tr ++ [orator_call txt voice fmt]).
Proof.
  unfold call_orator_tts_bytes, bind, post_orator, perform.
  by intros -> ->.
Qed.

Lemma normalize_direct resp fmt tr :
  is_direct_audio resp = true ->
  normalize resp fmt tr =
    (tr, Ok (content resp, item0 (split 59 (content_type_of resp)))).
Proof. unfold normalize. by intros ->. Qed.

(** A JSON object in which a top-level field decodes. *)
Lemma normalize_b64 resp fmt tr j b :
  is_direct_audio resp = false -> looks_like_json resp = true ->
  json resp = Some (JObj j) -> scan_b64 b64_keys j = Some b ->
  normalize resp fmt tr = (tr, Ok (b, guess_mime fmt)).
Proof.
  unfold normalize, json_steps, bind, ret. by intros -> -> -> ->.
Qed.

(** A JSON object in which no top-level field decodes and a URL is found. *)
Lemma normalize_url resp fmt tr j url :
  is_direct_audio resp = false -> looks_like_json resp = true ->
  json resp = Some (JObj j) -> scan_b64 b64_keys j = None ->
  scan_url url_keys j = Some url ->
  normalize resp fmt tr =
    match fetch_binary_url url tr with
    | (tr', Ok audio_bytes) => (tr', Ok (audio_bytes, u "audio/mpeg"))
    | (tr', Raise e) => (tr', Raise e)
    end.
Proof.
  unfold normalize, json_steps, bind, ret. intros -> -> -> -> ->.
  by destruct (fetch_binary_url url tr) as [tr' [a|e]].
Qed.

(** A JSON object in which only the nested object can still match. *)
Lemma normalize_nested resp fmt tr j data b :
  is_direct_audio resp = false -> looks_like_json resp = true ->
  json resp = Some (JObj j) -> scan_b64 b64_keys j = None ->
  scan_url url_keys j = None -> j !! u "data" = Some (JObj data) ->
  scan_b64 nested_keys data = Some b ->
  normalize resp fmt tr = (tr, Ok (b, guess_mime fmt)).
Proof.
  unfold normalize, json_steps, bind, ret. by intros -> -> -> -> -> -> ->.
Qed.

Lemma json_steps_none resp fmt tr :
  match json resp with
  | Some (JObj j) => no_field_matches j
  | _ => True
  end ->
  json_steps resp fmt tr = (tr, Ok None).
Proof.
  unfold json_steps, ret.
  destruct (json resp) as [[| | | | | |j]|]; try done.
  intros (H1 & H2 & H3).
  apply scan_b64_None in H1 as ->. apply scan_url_None in H2 as ->.
  destruct (j !! u "data") as [[| | | | | |data]|] eqn:Hd; try done.
  specialize (H3 data eq_refl). by apply scan_b64_None in H3 as ->.
Qed.

Lemma normalize_fallthrough resp fmt tr :
  is_direct_audio resp = false -> no_json_match resp ->
  normalize resp fmt tr =
    if nonempty (content resp)
    then (tr, Ok (content resp, u "application/octet-stream"))
    else (tr, Raise (HTTPException 502
                (JObj (<[u "status_code" := JInt (status_code resp)]>
                        (<[u "text" := JStr (text resp)]> ∅))))).
Proof.
  unfold normalize, bind. intros -> Hno.
  assert ((if looks_like_json resp then json_steps resp fmt else ret None) tr
          = (tr, Ok None)) as ->.
  { destruct Hno as [-> | Hno]; [done|].
    destruct (looks_like_json resp); [by apply json_steps_none | done]. }
  by destruct (nonempty (content resp)).
Qed.

Lemma is_direct_audio_spec resp :
  is_direct_audio resp = true <-> direct_audio_shape resp.
Proof.
  unfold is_direct_audio, direct_audio_shape, mentions.
  rewrite content_type_of_lookup, !andb_true_iff, orb_true_iff, Z.eqb_eq.
  rewrite !contains_spec.
  destruct (headers resp !! u "content-type") as [ct|]; simpl.
  - split.
    + intros [[H _] Hc]. split; [done|]. by exists ct.
    + intros [H (ct' & [= <-] & Hc)]. split; [split; [done|] | done].
      apply nonempty_true. intros ->.
      destruct Hc as [(a & b & Hc)|(a & b & Hc)]; by destruct a.
  - split; [by intros [[_ H] _] | by intros [_ (ct & H & _)]].
Qed.

(** The JSON test of line 195, spelled out: a declared content type that
    mentions "application/json", or a non-empty text whose first character
    after stripping is an opening brace or bracket. *)
Lemma looks_like_json_spec resp :
  looks_like_json resp = true <->
  mentions (u "application/json") (default [] (headers resp !! u "content-type"))
  \/ (text resp <> []
      /\ ((exists rest, strip (text resp) = u "{" ++ rest)
          \/ (exists rest, strip (text resp) = u "[" ++ rest))).
Proof.
  unfold looks_like_json, headers_get, mentions.
  rewrite lower_content_type.
  by rewrite orb_true_iff, andb_true_iff, orb_true_iff, contains_spec,
    !startswith_spec, nonempty_true.
Qed.

Lemma not_direct_audio resp :
  ~ direct_audio_shape resp -> is_direct_audio resp = false.
Proof.
  intros H. destruct (is_direct_audio resp) eqn:E; [|done].
  by apply is_direct_audio_spec in E.
Qed.

Lemma direct_audio_shape_false resp :
  is_direct_audio resp = false -> ~ direct_audio_shape resp.
Proof. intros H Hs. apply is_direct_audio_spec in Hs. congruence. Qed.

Lemma not_mentions (pat s : str) : contains pat s = false -> ~ mentions pat s.
Proof. intros H Hm. apply contains_spec in Hm. congruence. Qed.

Lemma truthy_opt_false (k : option str) :
  truthy_opt k = false <-> k = None \/ k = Some [].
Proof.
  destruct k as [[|c s]|]; simpl.
  - split; [by right | done].
  - split; [done | by intros [H|H]].
  - split; [by left | done].
Qed.

Lemma is_success_false (r : Response) :
  is_success r = false -> status_code r < 200 \/ 299 < status_code r.
Proof. unfold is_success. rewrite andb_false_iff, !Z.leb_gt. lia. Qed.

(** One run makes no call, or the POST alone, or the POST and one GET. *)
Lemma normalize_trace resp fmt tr tr' r :
  normalize resp fmt tr = (tr', r) ->
  tr' = tr \/ exists url, tr' = tr ++ [GET url].
Proof.
  unfold normalize, bind, json_steps, ret, raise.
  destruct (is_direct_audio resp); [intros [= <- _]; by left|].
  destruct (looks_like_json resp); cycle 1.
  { destruct (nonempty (content resp)); intros [= <- _]; by left. }
  destruct (json resp) as [[| | | | | |j]|];
    try (destruct (nonempty (content resp)); intros [= <- _]; by left).
  destruct (scan_b64 b64_keys j); [intros [= <- _]; by left|].
  destruct (scan_url url_keys j) as [url|].
  - unfold fetch_binary_url, perform.
    destruct (network (GET url)) as [g|msg|msg];
      [destruct (is_success g)| |]; intros [= <- _]; right; by exists url.
  - destruct (j !! u "data") as [[| | | | | |data]|];
      try (destruct (nonempty (content resp)); intros [= <- _]; by left).
    destruct (scan_b64 nested_keys data);
      [|destruct (nonempty (content resp))]; intros [= <- _]; by left.
Qed.

Lemma tts_trace txt voice fmt tr tr' r :
  call_orator_tts_bytes txt voice fmt tr = (tr', r) ->
  (tr' = tr /\ exists e, r = Raise e)
  \/ tr' = tr ++ [orator_call txt voice fmt]
  \/ exists url, tr' = tr ++ [orator_call txt voice fmt; GET url].
Proof.
  unfold call_orator_tts_bytes, bind, post_orator, perform, raise.
  destruct (truthy_opt ORATOR_API_KEY); simpl; [|intros [= <- <-]; left; eauto].
  destruct (network (orator_call txt voice fmt)) as [resp|msg|msg];
    [|intros [= <- _]; right; by left..].
  intros [->|[url ->]]%normalize_trace; right; [by left|right].
  exists url. by rewrite <- app_assoc.
Qed.

(** ** The claims *)

(** C9: if no provider credential is configured (the value read at start-up
    is absent or empty), every call of the normalizer raises an
    [HTTPException] with status 500 and leaves the trace of outbound calls
    as it found it: no network call is made. *)
Theorem C9_unconfigured_fails_500 (txt voice fmt : JSON) (tr : list Call) :
  ORATOR_API_KEY = None \/ ORATOR_API_KEY = Some [] ->
  call_orator_tts_bytes txt voice fmt tr =
    (tr, Raise (HTTPException 500
                  (JStr (u "Server is not configured with ORATOR_API_KEY")))).
Proof. intros H. by apply tts_unconfigured, truthy_opt_false. Qed.

(** C4: for every provider response with status 200 whose declared
    content type [ct] mentions "audio" or "octet-stream", the normalizer
    returns the raw body unchanged, after the single POST, with the mime
    type [ct] cut before its first ";" (code point 59): [mime] has no ";"
    and [ct] is [mime], or [mime] followed by ";" and a suffix. *)
Theorem C4_direct_audio_passthrough (txt voice fmt : JSON) (tr : list Call)
    (resp : Response) (ct : str) :
  truthy_opt ORATOR_API_KEY = true ->
  network (orator_call txt voice fmt) = Returned resp ->
  status_code resp = 200 ->
  headers resp !! u "content-type" = Some ct ->
  mentions (u "audio") ct \/ mentions (u "octet-stream") ct ->
  exists mime rest,
    call_orator_tts_bytes txt voice fmt tr =
      (tr ++ [orator_call txt voice fmt], Ok (content resp, mime))
    /\ ct = mime ++ rest
    /\ (59%N ∉ mime)
    /\ (rest = [] \/ exists rest', rest = 59%N :: rest').
Proof.
  intros Hkey Hnet Hst Hct Hm.
  assert (Hd : is_direct_audio resp = true).
  { apply is_direct_audio_spec. split; [done|]. by exists ct. }
  rewrite (tts_answered _ _ _ _ _ Hkey Hnet), (normalize_direct _ _ _ Hd).
  rewrite content_type_of_lookup, Hct. simpl.
  destruct (split_item0 59 ct) as (rest & H1 & H2 & H3).
  by exists (item0 (split 59 ct)), rest.
Qed.

(** C1: for every provider response that is treated as JSON (not a direct
    binary answer, passing the JSON test of line 195) and parses to an
    object [j], the fields audio, audio_base64, result, data are tried in
    that order; if [key] is the first of them that holds a string that
    base64-decodes (earlier fields are absent, not strings, or fail to
    decode, which does not stop the scan), the normalizer returns the
    decoded bytes [b], with mime type audio/mpeg when the request format
    is "mp3" or "mpeg" and audio/wav for any other format. *)
Theorem C1_base64_field_scan (txt voice fmt : JSON) (tr : list Call)
    (resp : Response) (j : gmap str JSON) (key : str) (b : bytes) :
  truthy_opt ORATOR_API_KEY = true ->
  network (orator_call txt voice fmt) = Returned resp ->
  ~ direct_audio_shape resp ->
  looks_like_json resp = true ->
  json resp = Some (JObj j) ->
  first_b64 [u "audio"; u "audio_base64"; u "result"; u "data"] j key b ->
  exists mime,
    call_orator_tts_bytes txt voice fmt tr =
      (tr ++ [orator_call txt voice fmt], Ok (b, mime))
    /\ (fmt = JStr (u "mp3") \/ fmt = JStr (u "mpeg") -> mime = u "audio/mpeg")
    /\ (fmt <> JStr (u "mp3") -> fmt <> JStr (u "mpeg") -> mime = u "audio/wav").
Proof.
  intros Hkey Hnet Hnd%not_direct_audio Hlj Hj Hfirst.
  assert (Hscan : scan_b64 b64_keys j = Some b).
  { apply scan_b64_Some. by exists key. }
  exists (guess_mime fmt).
  rewrite (tts_answered _ _ _ _ _ Hkey Hnet).
  rewrite (normalize_b64 _ _ _ _ _ Hnd Hlj Hj Hscan).
  split; [done|]. split; [apply guess_mime_mpeg | apply guess_mime_wav].
Qed.

(** C2: when the response is treated as JSON, parses to an object [j] in
    which none of audio, audio_base64, result, data decodes, and [key] is
    the first of url, audio_url, result_url, file that holds a string
    [url] starting with "http", the normalizer makes exactly one further
    call, a GET of [url]; it returns that response's body with mime type
    audio/mpeg when the status is in 200..299, and otherwise (another
    status, or an exception of the GET) raises an [HTTPException] with
    status 502, whatever the later fields of [j] hold. *)
Theorem C2_url_field_fetch (txt voice fmt : JSON) (tr : list Call)
    (resp : Response) (j : gmap str JSON) (key url : str) :
  truthy_opt ORATOR_API_KEY = true ->
  network (orator_call txt voice fmt) = Returned resp ->
  ~ direct_audio_shape resp ->
  looks_like_json resp = true ->
  json resp = Some (JObj j) ->
  no_b64 [u "audio"; u "audio_base64"; u "result"; u "data"] j ->
  first_url [u "url"; u "audio_url"; u "result_url"; u "file"] j key url ->
  call_orator_tts_bytes txt voice fmt tr =
    (tr ++ [orator_call txt voice fmt; GET url],
     match network (GET url) with
     | Returned r =>
         if (200 <=? status_code r) && (status_code r <=? 299)
         then Ok (content r, u "audio/mpeg")
         else Raise (HTTPException 502
                (JStr (u "Failed to fetch audio URL: " ++ status_error_message r)))
     | RaisedRequestError msg | RaisedOther msg =>
         Raise (HTTPException 502 (JStr (u "Failed to fetch audio URL: " ++ msg)))
     end).
Proof.
  intros Hkey Hnet Hnd%not_direct_audio Hlj Hj Hno Hfirst.
  apply scan_b64_None in Hno.
  assert (Hscan : scan_url url_keys j = Some url).
  { apply scan_url_Some. by exists key. }
  rewrite (tts_answered _ _ _ _ _ Hkey Hnet).
  rewrite (normalize_url _ _ _ _ _ Hnd Hlj Hj Hno Hscan).
  unfold fetch_binary_url, perform, is_success.
  rewrite <- app_assoc. simpl.
  destruct (network (GET url)) as [r|msg|msg]; [|done|done].
  by destruct ((200 <=? status_code r) && (status_code r <=? 299)).
Qed.

(** The nested scan, in general. *)
Lemma nested_scan txt voice fmt tr resp j data key b :
  truthy_opt ORATOR_API_KEY = true ->
  network (orator_call txt voice fmt) = Returned resp ->
  ~ direct_audio_shape resp ->
  looks_like_json resp = true ->
  json resp = Some (JObj j) ->
  no_b64 b64_keys j -> no_url url_keys j ->
  j !! u "data" = Some (JObj data) ->
  first_b64 nested_keys data key b ->
  call_orator_tts_bytes txt voice fmt tr =
    (tr ++ [orator_call txt voice fmt], Ok (b, guess_mime fmt)).
Proof.
  intros Hkey Hnet Hnd%not_direct_audio Hlj Hj Hno64%scan_b64_None
    Hnourl%scan_url_None Hdata Hfirst.
  assert (Hscan : scan_b64 nested_keys data = Some b).
  { apply scan_b64_Some. by exists key. }
  rewrite (tts_answered _ _ _ _ _ Hkey Hnet).
  by rewrite (normalize_nested _ _ _ _ _ _ Hnd Hlj Hj Hno64 Hnourl Hdata Hscan).
Qed.

Lemma nested_example_not_str (s key t : str) :
  nested_example s !! key <> Some (JStr t).
Proof.
  unfold nested_example. destruct (decide (key = u "data")) as [->|Hne].
  - by rewrite lookup_singleton_eq.
  - by rewrite lookup_singleton_ne.
Qed.

(** C5: when the response is treated as JSON, parses to an object [j] in
    which no top-level field decodes and no URL field matches, and [j]
    holds an object [data] under "data", the fields audio, audio_base64 of
    [data] are tried in that order and the bytes of the first that decodes
    are returned (mime type from the request format, as for the top-level
    scan).  In particular the answer [{"data": {"audio": s}}], where [s]
    decodes to [B], yields [B]. *)
Theorem C5_nested_data_scan :
  (forall (txt voice fmt : JSON) (tr : list Call) (resp : Response)
      (j data : gmap str JSON) (key : str) (b : bytes),
    truthy_opt ORATOR_API_KEY = true ->
    network (orator_call txt voice fmt) = Returned resp ->
    ~ direct_audio_shape resp ->
    looks_like_json resp = true ->
    json resp = Some (JObj j) ->
    no_b64 [u "audio"; u "audio_base64"; u "result"; u "data"] j ->
    no_url [u "url"; u "audio_url"; u "result_url"; u "file"] j ->
    j !! u "data" = Some (JObj data) ->
    first_b64 [u "audio"; u "audio_base64"] data key b ->
    exists mime,
      call_orator_tts_bytes txt voice fmt tr =
        (tr ++ [orator_call txt voice fmt], Ok (b, mime))
      /\ (fmt = JStr (u "mp3") \/ fmt = JStr (u "mpeg") -> mime = u "audio/mpeg")
      /\ (fmt <> JStr (u "mp3") -> fmt <> JStr (u "mpeg") -> mime = u "audio/wav"))
  /\
  (forall (txt voice fmt : JSON) (tr : list Call) (resp : Response)
      (s : str) (B : bytes),
    truthy_opt ORATOR_API_KEY = true ->
    network (orator_call txt voice fmt) = Returned resp ->
    ~ direct_audio_shape resp ->
    looks_like_json resp = true ->
    json resp = Some (JObj {[ u "data" := JObj {[ u "audio" := JStr s ]} ]}) ->
    b64decode s = Some B ->
    exists mime,
      call_orator_tts_bytes txt voice fmt tr =
        (tr ++ [orator_call txt voice fmt], Ok (B, mime))).
Proof.
  split.
  - intros txt voice fmt tr resp j data key b Hkey Hnet Hnd Hlj Hj H64 Hurl Hdata Hfirst.
    exists (guess_mime fmt).
    rewrite (nested_scan _ _ _ _ _ _ _ _ _ Hkey Hnet Hnd Hlj Hj H64 Hurl Hdata Hfirst).
    split; [done|]. split; [apply guess_mime_mpeg | apply guess_mime_wav].
  - intros txt voice fmt tr resp s B Hkey Hnet Hnd Hlj Hj Hdec.
    exists (guess_mime fmt).
    apply (nested_scan _ _ _ _ _ (nested_example s) {[ u "audio" := JStr s ]}
             (u "audio") B Hkey Hnet Hnd Hlj Hj).
    + intros key t _ Hk. by apply nested_example_not_str in Hk.
    + intros key t _ Hk. by apply nested_example_not_str in Hk.
    + apply lookup_singleton_eq.
    + exists [], [u "audio_base64"], s. split; [done|].
      split; [apply no_b64_nil|]. split; [apply lookup_singleton_eq | done].
Qed.

(** The raw fallback, in general. *)
Lemma raw_fallback txt voice fmt tr resp :
  truthy_opt ORATOR_API_KEY = true ->
  network (orator_call txt voice fmt) = Returned resp ->
  ~ direct_audio_shape resp ->
  no_json_match resp ->
  content resp <> [] ->
  call_orator_tts_bytes txt voice fmt tr =
    (tr ++ [orator_call txt voice fmt],
     Ok (content resp, u "application/octet-stream")).
Proof.
  intros Hkey Hnet Hnd%not_direct_audio Hno Hc%nonempty_true.
  rewrite (tts_answered _ _ _ _ _ Hkey Hnet).
  by rewrite (normalize_fallthrough _ _ _ Hnd Hno), Hc.
Qed.

(** C6: if no earlier step recognises the response (it has not the shape
    of a direct binary answer, and the JSON branch is not entered, or the
    parsed value is not an object, or no field of the object matches) and
    its body is not empty, the normalizer returns that body verbatim with
    mime type application/octet-stream.  In particular so does a response
    with status 200, a content type that mentions neither "audio" nor
    "octet-stream", a body that does not parse as JSON and is not empty. *)
Theorem C6_raw_fallback :
  (forall (txt voice fmt : JSON) (tr : list Call) (resp : Response),
    truthy_opt ORATOR_API_KEY = true ->
    network (orator_call txt voice fmt) = Returned resp ->
    ~ direct_audio_shape resp ->
    no_json_match resp ->
    content resp <> [] ->
    call_orator_tts_bytes txt voice fmt tr =
      (tr ++ [orator_call txt voice fmt],
       Ok (content resp, u "application/octet-stream")))
  /\
  (forall (txt voice fmt : JSON) (tr : list Call) (resp : Response),
    truthy_opt ORATOR_API_KEY = true ->
    network (orator_call txt voice fmt) = Returned resp ->
    status_code resp = 200 ->
    (forall ct, headers resp !! u "content-type" = Some ct ->
                ~ mentions (u "audio") ct /\ ~ mentions (u "octet-stream") ct) ->
    json resp = None ->
    content resp <> [] ->
    call_orator_tts_bytes txt voice fmt tr =
      (tr ++ [orator_call txt voice fmt],
       Ok (content resp, u "application/octet-stream"))).
Proof.
  split; [exact raw_fallback|].
  intros txt voice fmt tr resp Hkey Hnet Hst Hct Hj Hc.
  apply raw_fallback; try done.
  - intros [_ (ct & Hl & Hm)]. destruct (Hct ct Hl) as [H1 H2].
    by destruct Hm.
  - right. by rewrite Hj.
Qed.

(** C7: if no step recognises the response and its body is empty, the
    normalizer raises an [HTTPException] with status 502 whose detail is
    the object holding the provider's status code under "status_code" and
    its body text under "text". *)
Theorem C7_provider_error_502 (txt voice fmt : JSON) (tr : list Call)
    (resp : Response) :
  truthy_opt ORATOR_API_KEY = true ->
  network (orator_call txt voice fmt) = Returned resp ->
  ~ direct_audio_shape resp ->
  no_json_match resp ->
  content resp = [] ->
  exists detail : gmap str JSON,
    call_orator_tts_bytes txt voice fmt tr =
      (tr ++ [orator_call txt voice fmt], Raise (HTTPException 502 (JObj detail)))
    /\ detail !! u "status_code" = Some (JInt (status_code resp))
    /\ detail !! u "text" = Some (JStr (text resp)).
Proof.
  intros Hkey Hnet Hnd%not_direct_audio Hno Hc.
  rewrite (tts_answered _ _ _ _ _ Hkey Hnet).
  rewrite (normalize_fallthrough _ _ _ Hnd Hno), Hc. simpl.
  eexists. split; [done|]. split.
  - apply lookup_insert_eq.
  - rewrite lookup_insert_ne; [apply lookup_insert_eq|].
    intros H. vm_compute in H. discriminate H.
Qed.

(** C8: for every request whose "text" field is missing or is the empty
    string, the front door answers with status 400 and the error body
    [{"detail": "text is required"}]; the trace of outbound calls is left
    as it was, and the answer is that of a computation that never reaches
    the normalizer (which would raise or extend the trace). *)
Theorem C8_missing_text_400 (payload : JSON) (tr : list Call) :
  (forall o, payload = JObj o ->
             o !! u "text" = None \/ o !! u "text" = Some (JStr [])) ->
  api_synthesize payload tr =
    (tr, Ok (JSONResponse 400
               (JObj {[ u "detail" := JStr (u "text is required") ]})))
  /\ (forall txt voice fmt tr' res,
        call_orator_tts_bytes txt voice fmt tr = (tr', Ok res) -> tr' <> tr).
Proof.
  intros H. split.
  - unfold api_synthesize, get_or.
    destruct payload as [| | | | | |o]; try done.
    by destruct (H o eq_refl) as [-> | ->].
  - intros txt voice fmt tr' res Hrun.
    destruct (tts_trace _ _ _ _ _ _ Hrun) as [[_ [e He]] | [-> | [url ->]]];
      [done | |]; intros Heq;
      apply (f_equal length) in Heq; rewrite length_app in Heq;
      simpl in Heq; lia.
Qed.

(** C10: for every provider response with a non-empty body the
    normalizer returns a result, unless the response parses to an object
    in which a URL field matches and the secondary fetch of that URL
    fails; then it raises the 502 of the failed fetch, whose detail is a
    string, not the provider-error object.  So a response with a status
    in 400..599, a non-empty body and no field that matches reaches the
    client through [api_synthesize] as a [StreamingResponse], status 200,
    with the body as it came and mime type application/octet-stream. *)
Theorem C10_nonempty_body_never_provider_error :
  (forall (txt voice fmt : JSON) (tr : list Call) (resp : Response),
    truthy_opt ORATOR_API_KEY = true ->
    network (orator_call txt voice fmt) = Returned resp ->
    content resp <> [] ->
    (exists tr' b mime,
       call_orator_tts_bytes txt voice fmt tr = (tr', Ok (b, mime)))
    \/ (exists j key url detail,
          json resp = Some (JObj j)
          /\ first_url [u "url"; u "audio_url"; u "result_url"; u "file"] j key url
          /\ fetch_fails url
          /\ call_orator_tts_bytes txt voice fmt tr =
               (tr ++ [orator_call txt voice fmt; GET url],
                Raise (HTTPException 502 (JStr detail)))))
  /\
  (forall (payload : JSON) (tr : list Call) (resp : Response),
    let txt := get_or payload (u "text") JNull in
    let voice := get_or payload (u "voice") (JStr (u "urdu")) in
    let fmt := get_or payload (u "format") (JStr (u "mp3")) in
    truthy_opt ORATOR_API_KEY = true ->
    truthy txt = true ->
    network (orator_call txt voice fmt) = Returned resp ->
    400 <= status_code resp <= 599 ->
    content resp <> [] ->
    no_json_match resp ->
    api_synthesize payload tr =
      (tr ++ [orator_call txt voice fmt],
       Ok (StreamingResponse (content resp) (u "application/octet-stream")))
    /\ response_status
         (StreamingResponse (content resp) (u "application/octet-stream")) = 200).
Proof.
  split.
  - intros txt voice fmt tr resp Hkey Hnet Hc%nonempty_true.
    rewrite (tts_answered _ _ _ _ _ Hkey Hnet).
    set (tr1 := tr ++ [orator_call txt voice fmt]).
    unfold normalize, json_steps, bind, ret.
    destruct (is_direct_audio resp); [by left; eauto|].
    destruct (looks_like_json resp); [|by rewrite Hc; left; eauto].
    destruct (json resp) as [[| | | | | |j]|] eqn:Hj;
      try (by rewrite Hc; left; eauto).
    destruct (scan_b64 b64_keys j); [by left; eauto|].
    destruct (scan_url url_keys j) as [url|] eqn:Hu.
    + apply scan_url_Some in Hu as [key Hfirst].
      unfold fetch_binary_url, perform.
      assert (Htr : tr1 ++ [GET url] = tr ++ [orator_call txt voice fmt; GET url])
        by (unfold tr1; by rewrite <- app_assoc).
      destruct (network (GET url)) as [g|msg|msg] eqn:Hg.
      * destruct (is_success g) eqn:Hs; [by left; eauto|].
        right. exists j, key, url. eexists. split; [done|]. split; [done|].
        split; [|by rewrite Htr].
        unfold fetch_fails. rewrite Hg. by apply is_success_false.
      * right. exists j, key, url. eexists. split; [done|]. split; [done|].
        split; [|by rewrite Htr]. unfold fetch_fails. by rewrite Hg.
      * right. exists j, key, url. eexists. split; [done|]. split; [done|].
        split; [|by rewrite Htr]. unfold fetch_fails. by rewrite Hg.
    + destruct (j !! u "data") as [[| | | | | |data]|];
        try (by rewrite Hc; left; eauto).
      destruct (scan_b64 nested_keys data); [|rewrite Hc]; by left; eauto.
  - intros payload tr resp txt voice fmt Hkey Htxt Hnet Hst Hc Hno.
    split; [|done]. unfold api_synthesize, bind.
    fold txt voice fmt. rewrite Htxt. simpl.
    rewrite (raw_fallback _ _ _ _ _ Hkey Hnet); try done.
    intros [H200 _]. lia.
Qed.

(** C3 (as the code has it): [health] is a total function of the loaded
    credential; it returns an object with exactly the two fields "status"
    and "orator_configured"; the flag is false and the status is
    "missing_api_key" exactly when the credential is absent or empty, and
    the flag is true and the status is "ok" otherwise. *)
Theorem C3_health_report :
  exists (status : str) (ok : bool),
    health !! u "status" = Some (JStr status)
    /\ health !! u "orator_configured" = Some (JBool ok)
    /\ (forall key, is_Some (health !! key) ->
                    key = u "status" \/ key = u "orator_configured")
    /\ ((ORATOR_API_KEY = None \/ ORATOR_API_KEY = Some []) <->
        (status = u "missing_api_key" /\ ok = false))
    /\ (~ (ORATOR_API_KEY = None \/ ORATOR_API_KEY = Some []) <->
        (status = u "ok" /\ ok = true)).
Proof.
  unfold health.
  exists (if truthy_opt ORATOR_API_KEY then u "ok" else u "missing_api_key"),
    (truthy_opt ORATOR_API_KEY).
  split; [apply lookup_insert_eq|]. split.
  { rewrite lookup_insert_ne; [apply lookup_insert_eq|].
    intros H. vm_compute in H. discriminate H. }
  split.
  { intros key [v Hv].
    destruct (decide (key = u "status")) as [|H1]; [by left|].
    destruct (decide (key = u "orator_configured")) as [|H2]; [by right|].
    by rewrite !lookup_insert_ne in Hv. }
  rewrite <- truthy_opt_false.
  destruct (truthy_opt ORATOR_API_KEY); split; split; try done.
  - by intros [_ H].
  - by intros [_ H].
Qed.

(** ** Further properties of the endpoints *)

Lemma normalize_outcomes resp fmt tr :
  normalize_outcome resp fmt tr (normalize resp fmt tr).
Proof.
  unfold normalize, json_steps, bind, ret, raise.
  destruct (is_direct_audio resp) eqn:Hd; [by constructor|].
  assert (Hfall :
    normalize_outcome resp fmt tr
      (if nonempty (content resp)
       then (tr, Ok (content resp, u "application/octet-stream"))
       else (tr, Raise (HTTPException 502
               (JObj (<[u "status_code" := JInt (status_code resp)]>
                       (<[u "text" := JStr (text resp)]> ∅))))))).
  { destruct (nonempty (content resp)) eqn:Hc.
    - apply out_raw; [done | by apply nonempty_true].
    - apply out_error; [done | by destruct (content resp)]. }
  destruct (looks_like_json resp) eqn:Hl;
    [|by destruct (nonempty (content resp))].
  destruct (json resp) as [[| | | | | |j]|] eqn:Hj;
    try (by destruct (nonempty (content resp))).
  destruct (scan_b64 b64_keys j) as [b|] eqn:H64; [by eapply out_b64|].
  destruct (scan_url url_keys j) as [url|] eqn:Hu.
  - unfold fetch_binary_url, perform.
    destruct (network (GET url)) as [g|msg|msg] eqn:Hg.
    + destruct (is_success g) eqn:Hs; [by eapply out_url|].
      eapply out_url_failed; try done.
      unfold fetch_fails. rewrite Hg. by apply is_success_false.
    + eapply out_url_failed; try done. unfold fetch_fails. by rewrite Hg.
    + eapply out_url_failed; try done. unfold fetch_fails. by rewrite Hg.
  - destruct (j !! u "data") as [[| | | | | |data]|] eqn:Hdata;
      try (by destruct (nonempty (content resp))).
    destruct (scan_b64 nested_keys data) as [b|] eqn:Hn; [by eapply out_nested|].
    by destruct (nonempty (content resp)).
Qed.

Lemma tts_cases txt voice fmt tr :
  (truthy_opt ORATOR_API_KEY = false
   /\ call_orator_tts_bytes txt voice fmt tr =
        (tr, Raise (HTTPException 500
                      (JStr (u "Server is not configured with ORATOR_API_KEY")))))
  \/ (truthy_opt ORATOR_API_KEY = true
      /\ exists msg,
           network (orator_call txt voice fmt) = RaisedRequestError msg
           /\ call_orator_tts_bytes txt voice fmt tr =
                (tr ++ [orator_call txt voice fmt],
                 Raise (HTTPException 502
                          (JStr (u "Request to Orator failed: " ++ msg)))))
  \/ (truthy_opt ORATOR_API_KEY = true
      /\ exists msg,
           network (orator_call txt voice fmt) = RaisedOther msg
           /\ call_orator_tts_bytes txt voice fmt tr =
                (tr ++ [orator_call txt voice fmt], Raise (Unhandled msg)))
  \/ (truthy_opt ORATOR_API_KEY = true
      /\ exists resp,
           network (orator_call txt voice fmt) = Returned resp
           /\ call_orator_tts_bytes txt voice fmt tr =
                normalize resp fmt (tr ++ [orator_call txt voice fmt])).
Proof.
  destruct (truthy_opt ORATOR_API_KEY) eqn:Hk.
  - right. unfold call_orator_tts_bytes, bind, post_orator, perform. rewrite Hk.
    simpl. destruct (network (orator_call txt voice fmt)) as [resp|msg|msg] eqn:Hn.
    + do 2 right. split; [done|]. by exists resp.
    + left. split; [done|]. by exists msg.
    + right. left. split; [done|]. by exists msg.
  - left. split; [done|]. by apply tts_unconfigured.
Qed.

Lemma no_semicolon_in_constants :
  (59%N ∉ u "audio/mpeg") /\ (59%N ∉ u "audio/wav")
  /\ (59%N ∉ u "application/octet-stream").
Proof.
  repeat split; intros H; apply list_elem_of_In in H; vm_compute in H;
    intuition discriminate.
Qed.

Lemma guess_mime_cases fmt :
  guess_mime fmt = u "audio/mpeg" \/ guess_mime fmt = u "audio/wav".
Proof.
  unfold guess_mime.
  destruct (is_str fmt (u "mp3") || is_str fmt (u "mpeg")); [by left | by right].
Qed.

(** X1: when the POST to the provider fails at the transport level
    ([httpx.RequestError]), the normalizer raises a 502 whose detail is
    "Request to Orator failed: " followed by the error's message, having made
    that one call and no other (no retry); an exception of any other kind
    leaves the function as it is, not turned into an [HTTPException]. *)
Theorem post_failure_is_502_without_retry (txt voice fmt : JSON) (tr : list Call) :
  truthy_opt ORATOR_API_KEY = true ->
  (forall msg,
     network (orator_call txt voice fmt) = RaisedRequestError msg ->
     call_orator_tts_bytes txt voice fmt tr =
       (tr ++ [orator_call txt voice fmt],
        Raise (HTTPException 502 (JStr (u "Request to Orator failed: " ++ msg)))))
  /\ (forall msg,
       network (orator_call txt voice fmt) = RaisedOther msg ->
       call_orator_tts_bytes txt voice fmt tr =
         (tr ++ [orator_call txt voice fmt], Raise (Unhandled msg))).
Proof.
  intros Hk.
  split; intros msg Hn;
    unfold call_orator_tts_bytes, bind, post_orator, perform;
    by rewrite Hk, Hn.
Qed.

(** X2: whatever the normalizer raises is one of three things: the 500 of
    the missing credential, raised before any call; a 502; or the exception,
    other than a transport error, that the POST itself raised. *)
Theorem normalizer_exceptions_classified (txt voice fmt : JSON)
    (tr tr' : list Call) (e : Exception) :
  call_orator_tts_bytes txt voice fmt tr = (tr', Raise e) ->
  (truthy_opt ORATOR_API_KEY = false /\ tr' = tr
   /\ e = HTTPException 500
            (JStr (u "Server is not configured with ORATOR_API_KEY")))
  \/ (truthy_opt ORATOR_API_KEY = true /\ exists detail, e = HTTPException 502 detail)
  \/ (truthy_opt ORATOR_API_KEY = true
      /\ exists msg, e = Unhandled msg
           /\ network (orator_call txt voice fmt) = RaisedOther msg).
Proof.
  intros Hrun.
  destruct (tts_cases txt voice fmt tr)
    as [[Hk H] | [[Hk (msg & Hn & H)] | [[Hk (msg & Hn & H)] | [Hk (resp & Hn & H)]]]];
    rewrite H in Hrun.
  - injection Hrun as <- <-. by left.
  - injection Hrun as <- <-. right. left. eauto.
  - injection Hrun as <- <-. right. right. eauto.
  - right. left. split; [done|].
    pose proof (normalize_outcomes resp fmt (tr ++ [orator_call txt voice fmt])) as Ho.
    rewrite Hrun in Ho. inversion Ho; eauto.
Qed.

(** X3: one run makes at most two outbound calls, appended to the trace in
    this order: the POST to the provider, then at most one GET; the GET goes
    to a string that starts with "http" and is the value of one of the
    fields url, audio_url, result_url, file of the object the provider
    returned. *)
Theorem outbound_calls_bounded (txt voice fmt : JSON) (tr tr' : list Call)
    (r : Result (bytes * str)) :
  call_orator_tts_bytes txt voice fmt tr = (tr', r) ->
  tr' = tr
  \/ tr' = tr ++ [orator_call txt voice fmt]
  \/ exists resp j key url,
       network (orator_call txt voice fmt) = Returned resp
       /\ json resp = Some (JObj j)
       /\ key ∈ [u "url"; u "audio_url"; u "result_url"; u "file"]
       /\ j !! key = Some (JStr url)
       /\ startswith url (u "http") = true
       /\ tr' = tr ++ [orator_call txt voice fmt; GET url].
Proof.
  intros Hrun.
  assert (Hurl : forall resp j url,
            network (orator_call txt voice fmt) = Returned resp ->
            json resp = Some (JObj j) -> scan_url url_keys j = Some url ->
            exists resp j key url',
              network (orator_call txt voice fmt) = Returned resp
              /\ json resp = Some (JObj j)
              /\ key ∈ [u "url"; u "audio_url"; u "result_url"; u "file"]
              /\ j !! key = Some (JStr url')
              /\ startswith url' (u "http") = true
              /\ (tr ++ [orator_call txt voice fmt]) ++ [GET url] =
                   tr ++ [orator_call txt voice fmt; GET url']).
  { intros resp j url Hn Hj Hu.
    apply scan_url_Some in Hu as (key & pre & post & Heq & _ & Hk & Hs).
    exists resp, j, key, url. repeat (split; [done|]).
    split; [|split; [done|split; [done|by rewrite <- app_assoc]]].
    change [u "url"; u "audio_url"; u "result_url"; u "file"] with url_keys.
    rewrite Heq. apply elem_of_app. right. by left. }
  destruct (tts_cases txt voice fmt tr)
    as [[Hk H] | [[Hk (msg & Hn & H)] | [[Hk (msg & Hn & H)] | [Hk (resp & Hn & H)]]]];
    rewrite H in Hrun.
  - injection Hrun as <- _. by left.
  - injection Hrun as <- _. right. by left.
  - injection Hrun as <- _. right. by left.
  - pose proof (normalize_outcomes resp fmt (tr ++ [orator_call txt voice fmt])) as Ho.
    rewrite Hrun in Ho.
    inversion Ho; subst; try (right; by left); right; right; by eapply Hurl.
Qed.

(** X4: a successful result comes from a response of the provider, and its
    mime type never contains ";".  If the response has the shape of a direct
    binary answer, the bytes are its body and the mime type is a prefix of
    its declared content type; otherwise (in particular for every status
    other than 200) the mime type is one of audio/mpeg, audio/wav and
    application/octet-stream, whatever content type the provider declared. *)
Theorem returned_mime_is_clean (txt voice fmt : JSON) (tr tr' : list Call)
    (b : bytes) (mime : str) :
  call_orator_tts_bytes txt voice fmt tr = (tr', Ok (b, mime)) ->
  (59%N ∉ mime)
  /\ exists resp,
       network (orator_call txt voice fmt) = Returned resp
       /\ ((direct_audio_shape resp /\ b = content resp
            /\ exists ct rest, headers resp !! u "content-type" = Some ct
                                /\ ct = mime ++ rest)
           \/ (~ direct_audio_shape resp
               /\ (mime = u "audio/mpeg" \/ mime = u "audio/wav"
                   \/ mime = u "application/octet-stream"))).
Proof.
  intros Hrun.
  destruct no_semicolon_in_constants as (Hs1 & Hs2 & Hs3).
  destruct (tts_cases txt voice fmt tr)
    as [[Hk H] | [[Hk (msg & Hn & H)] | [[Hk (msg & Hn & H)] | [Hk (resp & Hn & H)]]]];
    rewrite H in Hrun; try discriminate Hrun.
  pose proof (normalize_outcomes resp fmt (tr ++ [orator_call txt voice fmt])) as Ho.
  rewrite Hrun in Ho.
  assert (Hconst : is_direct_audio resp = false ->
            mime = u "audio/mpeg" \/ mime = u "audio/wav"
            \/ mime = u "application/octet-stream" ->
            (59%N ∉ mime)
            /\ exists resp0,
                 network (orator_call txt voice fmt) = Returned resp0
                 /\ ((direct_audio_shape resp0 /\ b = content resp0
                      /\ exists ct rest, headers resp0 !! u "content-type" = Some ct
                                          /\ ct = mime ++ rest)
                     \/ (~ direct_audio_shape resp0
                         /\ (mime = u "audio/mpeg" \/ mime = u "audio/wav"
                             \/ mime = u "application/octet-stream")))).
  { intros Hd Hm. split.
    - by destruct Hm as [-> | [-> | ->]].
    - exists resp. split; [done|]. right.
      split; [by apply direct_audio_shape_false | done]. }
  inversion Ho; subst.
  - assert (Hshape : direct_audio_shape resp) by by apply is_direct_audio_spec.
    destruct Hshape as [Hst (ct & Hct & Hm)].
    rewrite content_type_of_lookup, Hct. simpl.
    destruct (split_item0 59 ct) as (rest & Hpre & Hni & _).
    split; [done|]. exists resp. split; [done|]. left.
    split; [split; [done | by exists ct]|]. split; [done|]. by exists ct, rest.
  - apply Hconst; [done|]. destruct (guess_mime_cases fmt) as [-> | ->]; tauto.
  - apply Hconst; [done | tauto].
  - apply Hconst; [done|]. destruct (guess_mime_cases fmt) as [-> | ->]; tauto.
  - apply Hconst; [done | tauto].
Qed.

Lemma normalize_extends resp fmt tr tr' r :
  normalize resp fmt tr = (tr', r) -> exists rest, tr' = tr ++ rest.
Proof.
  intros [-> | [url ->]]%normalize_trace; [exists [] | by exists [GET url]].
  by rewrite app_nil_r.
Qed.

Lemma normalize_format resp fmt1 fmt2 tr1 tr2 :
  same_up_to_mime (snd (normalize resp fmt1 tr1)) (snd (normalize resp fmt2 tr2)).
Proof.
  unfold normalize, json_steps, bind, ret, raise.
  destruct (is_direct_audio resp); [done|].
  destruct (looks_like_json resp);
    [|by destruct (nonempty (content resp))].
  destruct (json resp) as [[| | | | | |j]|];
    try (by destruct (nonempty (content resp))).
  destruct (scan_b64 b64_keys j); [done|].
  destruct (scan_url url_keys j) as [url|].
  - unfold fetch_binary_url, perform.
    destruct (network (GET url)) as [g|msg|msg]; [|done..].
    by destruct (is_success g).
  - destruct (j !! u "data") as [[| | | | | |data]|];
      try (by destruct (nonempty (content resp))).
    destruct (scan_b64 nested_keys data); [done|].
    by destruct (nonempty (content resp)).
Qed.

(** X5: the front door answers 400 exactly when the "text" of the request
    is falsy in Python's sense (missing, null, false, 0, an empty string,
    list or object, or a body that is no object): then it answers at once,
    making no call; and a JSON response of [api_synthesize] never arises
    in any other way. *)
Theorem bad_request_iff_falsy_text (payload : JSON) (tr : list Call) :
  (truthy (get_or payload (u "text") JNull) = false ->
   api_synthesize payload tr =
     (tr, Ok (JSONResponse 400
                (JObj {[ u "detail" := JStr (u "text is required") ]}))))
  /\ (forall tr' status body,
       api_synthesize payload tr = (tr', Ok (JSONResponse status body)) ->
       truthy (get_or payload (u "text") JNull) = false).
Proof.
  unfold api_synthesize, bind, ret. split.
  - by intros ->.
  - intros tr' status body.
    destruct (truthy (get_or payload (u "text") JNull)); [|done]. simpl.
    by destruct (call_orator_tts_bytes _ _ _ tr) as [tr1 [res|e]].
Qed.

(** X6: for a request object with a truthy "text", on a configured server,
    the first call appended to the trace is a POST to the configured
    endpoint.  Its JSON body has exactly the fields text, voice and format:
    the request's own text, and its voice and format where the request has
    the field (whatever its value, null included), "urdu" and "mp3" where it
    has not; no other field of the request is forwarded.  The credential
    travels as "Bearer <key>" in the Authorization header. *)
Theorem request_forwarded_with_defaults (o : gmap str JSON) (tr : list Call)
    (key : str) :
  ORATOR_API_KEY = Some key -> key <> [] ->
  truthy (default JNull (o !! u "text")) = true ->
  exists body hdrs rest r,
    api_synthesize (JObj o) tr =
      (tr ++ POST ORATOR_TTS_ENDPOINT (JObj body) hdrs :: rest, r)
    /\ body !! u "text" = o !! u "text"
    /\ body !! u "voice" = Some (default (JStr (u "urdu")) (o !! u "voice"))
    /\ body !! u "format" = Some (default (JStr (u "mp3")) (o !! u "format"))
    /\ (forall k, is_Some (body !! k) ->
                  k = u "text" \/ k = u "voice" \/ k = u "format")
    /\ (u "Authorization", u "Bearer " ++ key) ∈ hdrs.
Proof.
  intros Hkey Hne Htxt.
  assert (Hk : truthy_opt ORATOR_API_KEY = true).
  { rewrite Hkey. by apply nonempty_true. }
  set (txt := default JNull (o !! u "text")).
  set (voice := default (JStr (u "urdu")) (o !! u "voice")).
  set (fmt := default (JStr (u "mp3")) (o !! u "format")).
  assert (Hrun : exists rest r,
            api_synthesize (JObj o) tr =
              (tr ++ orator_call txt voice fmt :: rest, r)).
  { unfold api_synthesize, bind, get_or. fold txt voice fmt.
    unfold txt at 1. rewrite Htxt. simpl.
    destruct (call_orator_tts_bytes txt voice fmt tr) as [tr1 res] eqn:Hc.
    assert (exists rest, tr1 = tr ++ orator_call txt voice fmt :: rest) as [rest ->].
    { destruct (tts_cases txt voice fmt tr)
        as [[Hk' _] | [[_ (msg & _ & H)] | [[_ (msg & _ & H)] | [_ (resp & _ & H)]]]];
        [congruence | | |]; rewrite H in Hc.
      - injection Hc as <- _. by exists [].
      - injection Hc as <- _. by exists [].
      - apply normalize_extends in Hc as [rest ->].
        exists rest. by rewrite <- app_assoc. }
    destruct res as [res|e]; eauto. }
  destruct Hrun as (rest & r & Hrun).
  exists (<[u "text" := txt]> (<[u "voice" := voice]> (<[u "format" := fmt]> ∅))),
    orator_headers, rest, r.
  split; [exact Hrun|].
  assert (Htv : u "text" <> u "voice") by (intros H; vm_compute in H; discriminate H).
  assert (Htf : u "text" <> u "format") by (intros H; vm_compute in H; discriminate H).
  assert (Hvf : u "voice" <> u "format") by (intros H; vm_compute in H; discriminate H).
  split.
  { rewrite lookup_insert_eq. unfold txt.
    destruct (o !! u "text") as [v|] eqn:Ho; [done|]. discriminate Htxt. }
  split. { rewrite lookup_insert_ne by done. apply lookup_insert_eq. }
  split. { rewrite !lookup_insert_ne by done. apply lookup_insert_eq. }
  split.
  { intros k [v Hv].
    destruct (decide (k = u "text")) as [|H1]; [by left|].
    destruct (decide (k = u "voice")) as [|H2]; [right; by left|].
    destruct (decide (k = u "format")) as [|H3]; [right; by right|].
    by rewrite !lookup_insert_ne in Hv. }
  unfold orator_headers. rewrite Hkey. simpl. by left.
Qed.

(** X7: [api_synthesize] returns audio only when the server is configured,
    the text is truthy and the provider answered the POST: the streamed
    bytes and media type are exactly the normalizer's result for the
    request's text, voice and format, and the trace begins with that POST. *)
Theorem audio_only_after_provider_answer (payload : JSON) (tr tr' : list Call)
    (b : bytes) (m : str) :
  api_synthesize payload tr = (tr', Ok (StreamingResponse b m)) ->
  let txt := get_or payload (u "text") JNull in
  let voice := get_or payload (u "voice") (JStr (u "urdu")) in
  let fmt := get_or payload (u "format") (JStr (u "mp3")) in
  truthy_opt ORATOR_API_KEY = true
  /\ truthy txt = true
  /\ call_orator_tts_bytes txt voice fmt tr = (tr', Ok (b, m))
  /\ exists resp rest,
       network (orator_call txt voice fmt) = Returned resp
       /\ tr' = tr ++ orator_call txt voice fmt :: rest.
Proof.
  intros Hrun txt voice fmt.
  unfold api_synthesize, bind, ret in Hrun. fold txt voice fmt in Hrun.
  destruct (truthy txt) eqn:Ht; [|discriminate Hrun]. simpl in Hrun.
  destruct (call_orator_tts_bytes txt voice fmt tr) as [tr1 [[b1 m1]|e]] eqn:Hc;
    [|discriminate Hrun].
  simpl in Hrun. injection Hrun as <- <- <-.
  destruct (tts_cases txt voice fmt tr)
    as [[_ H] | [[_ (msg & _ & H)] | [[_ (msg & _ & H)] | [Hk (resp & Hn & H)]]]];
    rewrite H in Hc; try discriminate Hc.
  split; [done|]. split; [done|]. split; [done|].
  apply normalize_extends in Hc as [rest ->].
  exists resp, rest. split; [done|]. by rewrite <- app_assoc.
Qed.

(** X8: [health] and the normalizer agree on the credential: [health]
    reports the status "ok" exactly when no call of the normalizer, on any
    input, raises an [HTTPException] with status 500. *)
Theorem health_ok_iff_no_500 :
  health !! u "status" = Some (JStr (u "ok")) <->
  forall txt voice fmt tr tr' detail,
    call_orator_tts_bytes txt voice fmt tr <> (tr', Raise (HTTPException 500 detail)).
Proof.
  unfold health. rewrite lookup_insert_eq. split.
  - intros Hok txt voice fmt tr tr' detail Hrun.
    destruct (truthy_opt ORATOR_API_KEY) eqn:Hk.
    + destruct (tts_cases txt voice fmt tr)
        as [[Hk' _] | [[_ (msg & _ & H)] | [[_ (msg & _ & H)] | [_ (resp & _ & H)]]]];
        [congruence | | |]; rewrite H in Hrun; try discriminate Hrun.
      pose proof (normalize_outcomes resp fmt (tr ++ [orator_call txt voice fmt])) as Ho.
      rewrite Hrun in Ho. inversion Ho.
    + injection Hok as Hok. vm_compute in Hok. discriminate Hok.
  - intros Hno. destruct (truthy_opt ORATOR_API_KEY) eqn:Hk; [done|].
    exfalso. eapply (Hno JNull JNull JNull []). by apply tts_unconfigured.
Qed.

(** X9: the request format decides nothing but the mime type: if the
    provider gives the same answer to two requests that differ in their
    format, the normalizer returns the same bytes for both, or raises the
    same exception for both. *)
Theorem format_only_changes_mime (txt voice fmt1 fmt2 : JSON)
    (tr1 tr2 : list Call) (resp : Response) :
  truthy_opt ORATOR_API_KEY = true ->
  network (orator_call txt voice fmt1) = Returned resp ->
  network (orator_call txt voice fmt2) = Returned resp ->
  same_up_to_mime (snd (call_orator_tts_bytes txt voice fmt1 tr1))
                  (snd (call_orator_tts_bytes txt voice fmt2 tr2)).
Proof.
  intros Hk H1 H2.
  rewrite (tts_answered _ _ _ _ _ Hk H1), (tts_answered _ _ _ _ _ Hk H2).
  apply normalize_format.
Qed.

(** X11: outside the test for a direct binary answer the provider's status
    code is not looked at: two answers with the same headers, body, text and
    parsed JSON, a non-empty body and statuses other than 200 are normalized
    alike, with the same fetch, the same result or the same exception; so an
    error status with a body is handled as a success with that body is. *)
Theorem status_only_matters_for_direct_audio (resp : Response) (status : Z)
    (fmt : JSON) (tr : list Call) :
  status_code resp <> 200 -> status <> 200 -> content resp <> [] ->
  normalize {| status_code := status; headers := headers resp;
               content := content resp; text := text resp; json := json resp |}
            fmt tr
  = normalize resp fmt tr.
Proof.
  intros H1 H2 Hc. unfold normalize, is_direct_audio. simpl.
  apply Z.eqb_neq in H1, H2. rewrite H1, H2. simpl.
  destruct (content resp) as [|c l]; [done|]. reflexivity.
Qed.

End Service.

(** ** The statements at sample inputs *)

(** Goes through the keys of a concrete list, looking each up. *)
Ltac each_key Hin Hk :=
  repeat (apply elem_of_cons in Hin as [->|Hin];
          [vm_compute in Hk; discriminate Hk|]);
  by apply not_elem_of_nil in Hin.

(** The decoder model on a padded, an unpadded and a noisy input. *)
Example py_b64decode_examples :
  py_b64decode (u "aGk=") = Some [Byte.x68; Byte.x69]
  /\ py_b64decode (u "aG==") = Some [Byte.x68]
  /\ py_b64decode (u "aG=") = None
  /\ py_b64decode (u "a G k =") = Some [Byte.x68; Byte.x69]
  /\ py_b64decode [1740%N] = None.
Proof. repeat split; reflexivity. Qed.

(** The credential is read from the variable named on line 48; a variable
    called ORATOR_API_KEY is not consulted. *)
Remark api_key_variable :
  ORATOR_API_KEY Sample.env_key = Some (u "secret")
  /\ ORATOR_API_KEY {[ u "ORATOR_API_KEY" := u "secret" ]} = None.
Proof. split; reflexivity. Qed.

Lemma C9_unconfigured_fails_500_witness :
  call_orator_tts_bytes ∅ Sample.offline py_b64decode Sample.message
    Sample.txt Sample.voice Sample.fmt [] =
  ([], Raise (HTTPException 500
                (JStr (u "Server is not configured with ORATOR_API_KEY")))).
Proof.
  apply (C9_unconfigured_fails_500 ∅ Sample.offline py_b64decode Sample.message
           Sample.txt Sample.voice Sample.fmt []).
  left. reflexivity.
Defined.

Lemma C1_base64_field_scan_witness :
  exists mime,
    call_orator_tts_bytes Sample.env_key (Sample.answers Sample.resp_b64)
      py_b64decode Sample.message Sample.txt Sample.voice Sample.fmt [] =
    ([orator_call Sample.env_key Sample.txt Sample.voice Sample.fmt],
     Ok ([Byte.x68; Byte.x69], mime))
    /\ (Sample.fmt = JStr (u "mp3") \/ Sample.fmt = JStr (u "mpeg") ->
        mime = u "audio/mpeg")
    /\ (Sample.fmt <> JStr (u "mp3") -> Sample.fmt <> JStr (u "mpeg") ->
        mime = u "audio/wav").
Proof.
  apply (C1_base64_field_scan Sample.env_key (Sample.answers Sample.resp_b64)
           py_b64decode Sample.message Sample.txt Sample.voice Sample.fmt []
           Sample.resp_b64 Sample.obj_b64 (u "audio_base64")).
  - reflexivity.
  - reflexivity.
  - apply direct_audio_shape_false. vm_compute. reflexivity.
  - vm_compute. reflexivity.
  - reflexivity.
  - exists [u "audio"], [u "result"; u "data"], (u "aGk=").
    split; [reflexivity|]. split.
    + intros key s Hin Hk. each_key Hin Hk.
    + split; reflexivity.
Defined.

Lemma C2_url_field_fetch_witness :
  call_orator_tts_bytes Sample.env_key
    (Sample.net (Returned Sample.resp_url) (Returned Sample.resp_404))
    py_b64decode Sample.message Sample.txt Sample.voice Sample.fmt [] =
  ([orator_call Sample.env_key Sample.txt Sample.voice Sample.fmt;
    GET (u "http://example/audio.mp3")],
   Raise (HTTPException 502
            (JStr (u "Failed to fetch audio URL: " ++ u "status error")))).
Proof.
  apply (C2_url_field_fetch Sample.env_key
           (Sample.net (Returned Sample.resp_url) (Returned Sample.resp_404))
           py_b64decode Sample.message Sample.txt Sample.voice Sample.fmt []
           Sample.resp_url Sample.obj_url
           (u "result_url") (u "http://example/audio.mp3")).
  - reflexivity.
  - reflexivity.
  - apply direct_audio_shape_false. vm_compute. reflexivity.
  - vm_compute. reflexivity.
  - reflexivity.
  - intros key s Hin Hk. each_key Hin Hk.
  - exists [u "url"; u "audio_url"], [u "file"].
    split; [reflexivity|]. split.
    + intros key s Hin Hk. each_key Hin Hk.
    + split; reflexivity.
Defined.

Lemma C4_direct_audio_passthrough_witness :
  exists mime rest,
    call_orator_tts_bytes Sample.env_key (Sample.answers Sample.resp_audio)
      py_b64decode Sample.message Sample.txt Sample.voice Sample.fmt [] =
    ([orator_call Sample.env_key Sample.txt Sample.voice Sample.fmt],
     Ok ([Byte.x49; Byte.x44; Byte.x33], mime))
    /\ u "audio/mpeg; charset=binary" = mime ++ rest
    /\ (59%N ∉ mime)
    /\ (rest = [] \/ exists rest', rest = 59%N :: rest').
Proof.
  apply (C4_direct_audio_passthrough Sample.env_key
           (Sample.answers Sample.resp_audio) py_b64decode Sample.message
           Sample.txt Sample.voice Sample.fmt [] Sample.resp_audio
           (u "audio/mpeg; charset=binary")).
  - reflexivity.
  - reflexivity.
  - reflexivity.
  - reflexivity.
  - left. exists [], (u "/mpeg; charset=binary"). reflexivity.
Defined.

Lemma C5_nested_data_scan_witness :
  exists mime,
    call_orator_tts_bytes Sample.env_key (Sample.answers Sample.resp_nested)
      py_b64decode Sample.message Sample.txt Sample.voice Sample.fmt [] =
    ([orator_call Sample.env_key Sample.txt Sample.voice Sample.fmt],
     Ok ([Byte.x68; Byte.x69], mime)).
Proof.
  apply (proj2 (C5_nested_data_scan Sample.env_key
                  (Sample.answers Sample.resp_nested) py_b64decode Sample.message)
           Sample.txt Sample.voice Sample.fmt [] Sample.resp_nested (u "aGk=")).
  - reflexivity.
  - reflexivity.
  - apply direct_audio_shape_false. vm_compute. reflexivity.
  - vm_compute. reflexivity.
  - reflexivity.
  - reflexivity.
Defined.

Lemma C6_raw_fallback_witness :
  call_orator_tts_bytes Sample.env_key (Sample.answers Sample.resp_plain)
    py_b64decode Sample.message Sample.txt Sample.voice Sample.fmt [] =
  ([orator_call Sample.env_key Sample.txt Sample.voice Sample.fmt],
   Ok ([Byte.x6f; Byte.x6f; Byte.x70; Byte.x73], u "application/octet-stream")).
Proof.
  apply (proj2 (C6_raw_fallback Sample.env_key
                  (Sample.answers Sample.resp_plain) py_b64decode Sample.message)
           Sample.txt Sample.voice Sample.fmt [] Sample.resp_plain).
  - reflexivity.
  - reflexivity.
  - reflexivity.
  - intros ct Hct. vm_compute in Hct. injection Hct as <-.
    split; apply not_mentions; reflexivity.
  - reflexivity.
  - discriminate.
Defined.

Lemma C7_provider_error_502_witness :
  exists detail : gmap str JSON,
    call_orator_tts_bytes Sample.env_key (Sample.answers Sample.resp_empty_500)
      py_b64decode Sample.message Sample.txt Sample.voice Sample.fmt [] =
    ([orator_call Sample.env_key Sample.txt Sample.voice Sample.fmt],
     Raise (HTTPException 502 (JObj detail)))
    /\ detail !! u "status_code" = Some (JInt 500)
    /\ detail !! u "text" = Some (JStr []).
Proof.
  apply (C7_provider_error_502 Sample.env_key
           (Sample.answers Sample.resp_empty_500) py_b64decode Sample.message
           Sample.txt Sample.voice Sample.fmt [] Sample.resp_empty_500).
  - reflexivity.
  - reflexivity.
  - intros [H _]. discriminate H.
  - left. reflexivity.
  - reflexivity.
Defined.

Lemma C8_missing_text_400_witness :
  api_synthesize Sample.env_key Sample.offline py_b64decode Sample.message
    (JObj {[ u "voice" := JStr (u "urdu") ]}) [] =
    ([], Ok (JSONResponse 400
               (JObj {[ u "detail" := JStr (u "text is required") ]})))
  /\ (forall txt voice fmt tr' res,
        call_orator_tts_bytes Sample.env_key Sample.offline
          py_b64decode Sample.message txt voice fmt [] = (tr', Ok res) ->
        tr' <> []).
Proof.
  apply (C8_missing_text_400 Sample.env_key Sample.offline
           py_b64decode Sample.message (JObj {[ u "voice" := JStr (u "urdu") ]}) []).
  intros o [= <-]. left. reflexivity.
Defined.

Lemma C10_nonempty_body_never_provider_error_witness :
  api_synthesize Sample.env_key (Sample.answers Sample.resp_error_500)
    py_b64decode Sample.message Sample.request [] =
    ([orator_call Sample.env_key Sample.txt Sample.voice Sample.fmt],
     Ok (StreamingResponse (content Sample.resp_error_500)
           (u "application/octet-stream")))
  /\ response_status
       (StreamingResponse (content Sample.resp_error_500)
          (u "application/octet-stream")) = 200.
Proof.
  apply (proj2 (C10_nonempty_body_never_provider_error Sample.env_key
                  (Sample.answers Sample.resp_error_500)
                  py_b64decode Sample.message)
           Sample.request [] Sample.resp_error_500).
  - reflexivity.
  - reflexivity.
  - reflexivity.
  - simpl. lia.
  - discriminate.
  - left. reflexivity.
Defined.

(** The object [health] returns has no field "configured": the flag is
    called "orator_configured". *)
Lemma C3_health_has_no_configured_field :
  ~ (exists ok : bool, health ∅ !! u "configured" = Some (JBool ok))
  /\ ~ (exists ok : bool, health Sample.env_key !! u "configured" = Some (JBool ok)).
Proof.
  split; intros [ok H]; vm_compute in H; discriminate H.
Qed.

(** ** The further properties at sample inputs *)


Lemma post_failure_is_502_without_retry_witness :
  call_orator_tts_bytes Sample.env_key
    (Sample.net (RaisedRequestError (u "timed out")) (RaisedOther []))
    py_b64decode Sample.message Sample.txt Sample.voice Sample.fmt [] =
  ([orator_call Sample.env_key Sample.txt Sample.voice Sample.fmt],
   Raise (HTTPException 502
            (JStr (u "Request to Orator failed: " ++ u "timed out")))).
Proof.
  apply (proj1 (post_failure_is_502_without_retry Sample.env_key
                  (Sample.net (RaisedRequestError (u "timed out")) (RaisedOther []))
                  py_b64decode Sample.message Sample.txt Sample.voice Sample.fmt []
                  eq_refl)).
  reflexivity.
Defined.

Lemma normalizer_exceptions_classified_witness :
  (truthy_opt (ORATOR_API_KEY Sample.env_key) = false
   /\ [orator_call Sample.env_key Sample.txt Sample.voice Sample.fmt] = []
   /\ Unhandled (u "unreachable") =
        HTTPException 500 (JStr (u "Server is not configured with ORATOR_API_KEY")))
  \/ (truthy_opt (ORATOR_API_KEY Sample.env_key) = true
      /\ exists detail, Unhandled (u "unreachable") = HTTPException 502 detail)
  \/ (truthy_opt (ORATOR_API_KEY Sample.env_key) = true
      /\ exists msg, Unhandled (u "unreachable") = Unhandled msg
           /\ Sample.offline
                (orator_call Sample.env_key Sample.txt Sample.voice Sample.fmt)
              = RaisedOther msg).
Proof.
  apply (normalizer_exceptions_classified Sample.env_key Sample.offline
           py_b64decode Sample.message Sample.txt Sample.voice Sample.fmt []).
  reflexivity.
Defined.

Lemma outbound_calls_bounded_witness :
  [orator_call Sample.env_key Sample.txt Sample.voice Sample.fmt;
   GET (u "http://example/audio.mp3")] = []
  \/ [orator_call Sample.env_key Sample.txt Sample.voice Sample.fmt;
      GET (u "http://example/audio.mp3")]
     = [] ++ [orator_call Sample.env_key Sample.txt Sample.voice Sample.fmt]
  \/ exists resp j key url,
       Sample.net (Returned Sample.resp_url) (Returned Sample.resp_404)
         (orator_call Sample.env_key Sample.txt Sample.voice Sample.fmt)
       = Returned resp
       /\ json resp = Some (JObj j)
       /\ key ∈ [u "url"; u "audio_url"; u "result_url"; u "file"]
       /\ j !! key = Some (JStr url)
       /\ startswith url (u "http") = true
       /\ [orator_call Sample.env_key Sample.txt Sample.voice Sample.fmt;
           GET (u "http://example/audio.mp3")]
          = [] ++ [orator_call Sample.env_key Sample.txt Sample.voice Sample.fmt;
                   GET url].
Proof.
  apply (outbound_calls_bounded Sample.env_key
           (Sample.net (Returned Sample.resp_url) (Returned Sample.resp_404))
           py_b64decode Sample.message Sample.txt Sample.voice Sample.fmt []
           _ (Raise (HTTPException 502
                       (JStr (u "Failed to fetch audio URL: " ++ u "status error"))))).
  vm_compute. reflexivity.
Defined.

Lemma returned_mime_is_clean_witness :
  (59%N ∉ u "audio/mpeg")
  /\ exists resp,
       Sample.answers Sample.resp_audio
         (orator_call Sample.env_key Sample.txt Sample.voice Sample.fmt)
       = Returned resp
       /\ ((direct_audio_shape resp
            /\ [Byte.x49; Byte.x44; Byte.x33] = content resp
            /\ exists ct rest, headers resp !! u "content-type" = Some ct
                                /\ ct = u "audio/mpeg" ++ rest)
           \/ (~ direct_audio_shape resp
               /\ (u "audio/mpeg" = u "audio/mpeg" \/ u "audio/mpeg" = u "audio/wav"
                   \/ u "audio/mpeg" = u "application/octet-stream"))).
Proof.
  apply (returned_mime_is_clean Sample.env_key (Sample.answers Sample.resp_audio)
           py_b64decode Sample.message Sample.txt Sample.voice Sample.fmt []
           [orator_call Sample.env_key Sample.txt Sample.voice Sample.fmt]).
  vm_compute. reflexivity.
Defined.

Lemma bad_request_iff_falsy_text_witness :
  api_synthesize Sample.env_key Sample.offline py_b64decode Sample.message
    (JObj {[ u "text" := JInt 0 ]}) [] =
  ([], Ok (JSONResponse 400
             (JObj {[ u "detail" := JStr (u "text is required") ]}))).
Proof.
  apply (proj1 (bad_request_iff_falsy_text Sample.env_key Sample.offline
                  py_b64decode Sample.message (JObj {[ u "text" := JInt 0 ]}) [])).
  reflexivity.
Defined.

Lemma request_forwarded_with_defaults_witness :
  exists body hdrs rest r,
    api_synthesize Sample.env_key (Sample.answers Sample.resp_audio)
      py_b64decode Sample.message
      (JObj (<[u "text" := Sample.txt]> {[ u "speed" := JInt 2 ]})) [] =
      ([] ++ POST (ORATOR_TTS_ENDPOINT Sample.env_key) (JObj body) hdrs :: rest, r)
    /\ body !! u "text"
       = (<[u "text" := Sample.txt]> {[ u "speed" := JInt 2 ]} : gmap str JSON)
           !! u "text"
    /\ body !! u "voice"
       = Some (default (JStr (u "urdu"))
                 ((<[u "text" := Sample.txt]> {[ u "speed" := JInt 2 ]}
                    : gmap str JSON) !! u "voice"))
    /\ body !! u "format"
       = Some (default (JStr (u "mp3"))
                 ((<[u "text" := Sample.txt]> {[ u "speed" := JInt 2 ]}
                    : gmap str JSON) !! u "format"))
    /\ (forall k, is_Some (body !! k) ->
                  k = u "text" \/ k = u "voice" \/ k = u "format")
    /\ (u "Authorization", u "Bearer " ++ u "secret") ∈ hdrs.
Proof.
  apply (request_forwarded_with_defaults Sample.env_key
           (Sample.answers Sample.resp_audio) py_b64decode Sample.message
           (<[u "text" := Sample.txt]> {[ u "speed" := JInt 2 ]}) [] (u "secret")).
  - reflexivity.
  - discriminate.
  - reflexivity.
Defined.

Lemma audio_only_after_provider_answer_witness :
  truthy_opt (ORATOR_API_KEY Sample.env_key) = true
  /\ truthy Sample.txt = true
  /\ call_orator_tts_bytes Sample.env_key (Sample.answers Sample.resp_audio)
       py_b64decode Sample.message Sample.txt Sample.voice Sample.fmt [] =
     ([orator_call Sample.env_key Sample.txt Sample.voice Sample.fmt],
      Ok ([Byte.x49; Byte.x44; Byte.x33], u "audio/mpeg"))
  /\ exists resp rest,
       Sample.answers Sample.resp_audio
         (orator_call Sample.env_key Sample.txt Sample.voice Sample.fmt)
       = Returned resp
       /\ [orator_call Sample.env_key Sample.txt Sample.voice Sample.fmt]
          = [] ++ orator_call Sample.env_key Sample.txt Sample.voice Sample.fmt :: rest.
Proof.
  apply (audio_only_after_provider_answer Sample.env_key
           (Sample.answers Sample.resp_audio) py_b64decode Sample.message
           Sample.request []
           [orator_call Sample.env_key Sample.txt Sample.voice Sample.fmt]
           [Byte.x49; Byte.x44; Byte.x33] (u "audio/mpeg")).
  vm_compute. reflexivity.
Defined.

Lemma format_only_changes_mime_witness :
  same_up_to_mime
    (snd (call_orator_tts_bytes Sample.env_key (Sample.answers Sample.resp_b64)
            py_b64decode Sample.message Sample.txt Sample.voice
            (JStr (u "mp3")) []))
    (snd (call_orator_tts_bytes Sample.env_key (Sample.answers Sample.resp_b64)
            py_b64decode Sample.message Sample.txt Sample.voice
            (JStr (u "wav")) [])).
Proof.
  apply (format_only_changes_mime Sample.env_key (Sample.answers Sample.resp_b64)
           py_b64decode Sample.message Sample.txt Sample.voice
           (JStr (u "mp3")) (JStr (u "wav")) [] [] Sample.resp_b64).
  - reflexivity.
  - reflexivity.
  - reflexivity.
Defined.


Lemma status_only_matters_for_direct_audio_witness :
  normalize (Sample.answers Sample.resp_error_500) py_b64decode Sample.message
    {| status_code := 404; headers := headers Sample.resp_error_500;
       content := content Sample.resp_error_500;
       text := text Sample.resp_error_500; json := json Sample.resp_error_500 |}
    Sample.fmt []
  = normalize (Sample.answers Sample.resp_error_500) py_b64decode Sample.message
      Sample.resp_error_500 Sample.fmt [].
Proof.
  apply (status_only_matters_for_direct_audio (Sample.answers Sample.resp_error_500)
           py_b64decode Sample.message Sample.resp_error_500 404 Sample.fmt []).
  - discriminate.
  - discriminate.
  - discriminate.
Defined.
